(** * gen_host_vars: Ansible variable generator for the campus EVPN lab

    A shallow embedding of [py_scripts/gen_host_vars.py] together with the
    properties checked against its specification.

    Conventions of the embedding:
    - Python [str] is [string] (a sequence of bytes, UTF-8 for the few
      non-ASCII characters of the static documents); Python [int] is [Z].
    - A device of the catalog is a dict used as a struct with the keys
      [hostname], [loopback0], [loopback1] and [mgmt]: it is a record.  The
      script reads the first three with [device[k]] and the last one with
      [device.get('mgmt', default)], so only [mgmt] is optional.
    - A Python dict is insertion-ordered: it is an association list without
      duplicate keys, with [dict_set] and [dict_update] written as CPython
      behaves (an existing key keeps its position, a new key goes last).
    - [None] used as a dict value is the constructor [VNone].
    - Files are a finite map from path to content; [open(p, 'w')] followed by
      writes replaces the content at [p].  Console output ([print]) is not a
      file and is left out, as are failures of the file system.
    - [yaml.dump] belongs to PyYAML, not to the script: it is a parameter of
      the sections that write YAML. *)

From Stdlib Require Import ZArith Lia.
From stdpp Require Import gmap strings list fin_maps.

Local Open Scope Z_scope.

(** ** Strings *)

Module Str.

(** [s.startswith(p)]. *)
Fixpoint starts_with (p s : string) : bool :=
  match p, s with
  | EmptyString, _ => true
  | String a p', String b s' => if decide (a = b) then starts_with p' s' else false
  | String _ _, EmptyString => false
  end.

(** Python's [needle in s] on strings: some suffix of [s] starts with
    [needle]. *)
Fixpoint contains (needle s : string) : bool :=
  starts_with needle s ||
  match s with
  | EmptyString => false
  | String _ s' => contains needle s'
  end.

(** The mathematical notion the operator decides. *)
Definition Substring (needle s : string) : Prop :=
  ∃ pre post, s = pre +:+ needle +:+ post.

(** The pieces of a text, glued in order. *)
Fixpoint concat (l : list string) : string :=
  match l with
  | [] => ""
  | s :: l' => s +:+ concat l'
  end.

End Str.

Notation "needle 'in_str' s" := (Str.contains needle s) (at level 70, no associativity).

(** ** Python values and dicts *)

(** Keys of the dicts the script builds: strings and integers. *)
Inductive key :=
  | KStr (s : string)
  | KInt (n : Z).

#[global] Instance key_eq_dec : EqDecision key.
Proof. solve_decision. Defined.

(** The values that occur in the generated mappings. *)
#[warnings="-register-all"] Inductive value :=
  | VNone
  | VStr (s : string)
  | VInt (n : Z)
  | VList (l : list value)
  | VDict (d : list (key * value)).

(** [value is None]. *)
Definition is_none (v : value) : bool :=
  match v with
  | VNone => true
  | _ => false
  end.

Section dict.
Context {K V : Type} `{EqDecision K}.

(** [d[k] = v]: an existing key keeps its place, a new key goes last. *)
Fixpoint dict_set (d : list (K * V)) (k : K) (v : V) : list (K * V) :=
  match d with
  | [] => [(k, v)]
  | (k', v') :: d' =>
      if decide (k' = k) then (k', v) :: d' else (k', v') :: dict_set d' k v
  end.

(** [d.update(e)]: the items of [e], in order, are set in [d]. *)
Definition dict_update (d e : list (K * V)) : list (K * V) :=
  fold_left (λ acc kv, dict_set acc kv.1 kv.2) e d.

(** A dict display or comprehension: items are set from left to right
    in an empty dict, so a repeated key keeps its first place and its last
    value. *)
Definition dict_of_items (items : list (K * V)) : list (K * V) :=
  dict_update [] items.

(** [d.get(k)] with [None] for a missing key. *)
Fixpoint dict_get (d : list (K * V)) (k : K) : option V :=
  match d with
  | [] => None
  | (k', v) :: d' => if decide (k' = k) then Some v else dict_get d' k
  end.

(** [d.get(k, default)]. *)
Definition dict_get_default (d : list (K * V)) (k : K) (default : V) : V :=
  match dict_get d k with
  | Some v => v
  | None => default
  end.

(** [d[k].append(x)] for a dict of lists; [None] stands for the
    [KeyError] of a missing key. *)
Fixpoint dict_append {A} (d : list (K * list A)) (k : K) (x : A)
  : option (list (K * list A)) :=
  match d with
  | [] => None
  | (k', l) :: d' =>
      if decide (k' = k) then Some ((k', l ++ [x]) :: d')
      else d'' ← dict_append d' k x; Some ((k', l) :: d'')
  end.
End dict.

(** ** Device catalog *)

Record DeviceRecord := mk_device {
  hostname : string;
  loopback0 : string;
  loopback1 : string;
  mgmt : option string
}.

Definition devices_data : list DeviceRecord :=
  let mk_device h l0 l1 m := mk_device h l0 l1 (Some m) in
  [
    mk_device "dub-ssp1" "10.10.10.1" "20.20.20.1" "1.1.1.1";
    mk_device "dub-ssp2" "10.10.10.2" "20.20.20.2" "1.1.1.2";
    mk_device "dub-ssp3" "10.10.10.3" "20.20.20.3" "1.1.1.3";
    mk_device "dub-ssp4" "10.10.10.4" "20.20.20.4" "1.1.1.4";
    mk_device "dub-st1-sp1" "10.10.10.5" "20.20.20.5" "1.1.1.5";
    mk_device "dub-st1-sp2" "10.10.10.6" "20.20.20.6" "1.1.1.6";
    mk_device "dub-st1-lf1" "10.10.10.11" "20.20.20.11" "1.1.1.11";
    mk_device "dub-st1-lf2" "10.10.10.12" "20.20.20.12" "1.1.1.12";
    mk_device "dub-st2-sp1" "10.10.10.7" "20.20.20.7" "1.1.1.7";
    mk_device "dub-st2-sp2" "10.10.10.8" "20.20.20.8" "1.1.1.8";
    mk_device "dub-st2-lf1" "10.10.10.13" "20.20.20.13" "1.1.1.13";
    mk_device "dub-st2-lf2" "10.10.10.14" "20.20.20.14" "1.1.1.14";
    mk_device "dub-st3-sp1" "10.10.10.9" "20.20.20.9" "1.1.1.9";
    mk_device "dub-st3-sp2" "10.10.10.10" "20.20.20.10" "1.1.1.10";
    mk_device "dub-st3-lf1" "10.10.10.15" "20.20.20.15" "1.1.1.15";
    mk_device "dub-st3-lf2" "10.10.10.16" "20.20.20.16" "1.1.1.16"
  ].

(** ** Classifier *)

Definition determine_device_type (hostname : string) : string :=
  if "-ssp" in_str hostname then "superspine"
  else if ("-sp" in_str hostname) && negb ("-ssp" in_str hostname) then "spine"
  else if "-lf" in_str hostname then "leaf"
  else "unknown".

Definition extract_building (hostname : string) : option string :=
  if "-st1-" in_str hostname then Some "st1"
  else if "-st2-" in_str hostname then Some "st2"
  else if "-st3-" in_str hostname then Some "st3"
  else None.

Definition get_building_vlans (building : string) : list Z :=
  let vlan_mapping :=
    [ ("st1", [100; 200; 300]);
      ("st2", [200; 300; 400]);
      ("st3", [100; 300; 400]) ] in
  dict_get_default vlan_mapping building [].

(** ** Variable builder *)

(** Truth value of a string or of a list in a condition. *)
Definition truthy_str (s : string) : bool := negb (String.eqb s "").
Definition truthy_list {A} (l : list A) : bool :=
  match l with
  | [] => false
  | _ :: _ => true
  end.

(** [x in l] for a list of strings. *)
Definition str_in_list (x : string) (l : list string) : bool :=
  existsb (String.eqb x) l.

Definition generate_host_vars (device : DeviceRecord) : list (string * value) :=
  let hostname := device.(hostname) in
  let device_type := determine_device_type hostname in
  let building := extract_building hostname in
  let host_vars :=
    [ ("# Device identification", VNone);
      ("hostname", VStr hostname);
      ("device_type", VStr device_type);
      ("router_id", VStr device.(loopback0));
      ("# Routing parameters", VNone);
      ("ospf_process_id", VInt 1);
      ("ospf_area", VStr "0.0.0.0");
      ("bgp_asn", VInt 65001) ] in
  let host_vars :=
    if String.eqb device_type "superspine" then
      dict_update host_vars
        [ ("# BGP Route Reflector role", VNone);
          ("bgp_role", VStr "route_reflector");
          ("route_reflector_cluster_id", VStr "1.1.1.1");
          ("# Loopback interfaces (RR only)", VNone);
          ("loopback_interfaces", VDict
             [ (KStr "loopback0", VDict
                  [ (KStr "description", VStr "Router-ID for OSPF and BGP Route Reflector");
                    (KStr "ip_address", VStr (device.(loopback0) +:+ "/32")) ]) ]) ]
    else
      dict_update host_vars
        [ ("# VTEP configuration", VNone);
          ("vtep_ip", VStr device.(loopback1));
          ("bgp_role", VStr "route_reflector_client");
          ("# Loopback interfaces (VTEP enabled)", VNone);
          ("loopback_interfaces", VDict
             [ (KStr "loopback0", VDict
                  [ (KStr "description", VStr "Router-ID for OSPF and BGP");
                    (KStr "ip_address", VStr (device.(loopback0) +:+ "/32")) ]);
               (KStr "loopback1", VDict
                  [ (KStr "description", VStr "VTEP Loopback for VXLAN");
                    (KStr "ip_address", VStr (device.(loopback1) +:+ "/32")) ]) ]) ] in
  match building with
  | Some building =>
      if truthy_str building then
        let building_vlans := get_building_vlans building in
        let host_vars :=
          dict_update host_vars
            [ ("# Building-specific configuration", VNone);
              ("building", VStr building);
              ("vlans", VList (VInt <$> building_vlans)) ] in
        if str_in_list device_type ["spine"; "leaf"] && truthy_list building_vlans then
          dict_update host_vars
            [ ("# VLAN to VNI mappings", VNone);
              ("vni_mappings", VDict
                 (dict_of_items
                    ((λ vlan, (KInt vlan, VInt (vlan + 10000))) <$> building_vlans))) ]
        else host_vars
      else host_vars
  | None => host_vars
  end.

(** The dict [group_vars] of [create_group_vars]. *)
Definition group_vars : list (string * value) :=
  [ ("# Global network parameters", VNone);
    ("ospf_process_id", VInt 1);
    ("ospf_area", VStr "0.0.0.0");
    ("bgp_asn", VInt 65001);
    ("# VXLAN global settings", VNone);
    ("vxlan_udp_port", VInt 4789);
    ("multicast_group", VStr "239.1.1.1");
    ("# Global VLAN to VNI mappings", VNone);
    ("global_vni_mappings", VDict
       [ (KInt 100, VInt 10100);
         (KInt 200, VInt 10200);
         (KInt 300, VInt 10300);
         (KInt 400, VInt 10400) ]);
    ("# Building VLAN assignments", VNone);
    ("building_vlans", VDict
       [ (KStr "st1", VList [VInt 100; VInt 200; VInt 300]);
         (KStr "st2", VList [VInt 200; VInt 300; VInt 400]);
         (KStr "st3", VList [VInt 100; VInt 300; VInt 400]) ]);
    ("# VLAN stretching design", VNone);
    ("vlan_stretching", VDict
       [ (KInt 100, VList [VStr "st1"; VStr "st3"]);
         (KInt 200, VList [VStr "st1"; VStr "st2"]);
         (KInt 300, VList [VStr "st1"; VStr "st2"; VStr "st3"]);
         (KInt 400, VList [VStr "st2"; VStr "st3"]) ]);
    ("# Route reflector settings", VNone);
    ("route_reflector_cluster_id", VStr "1.1.1.1");
    ("# Ansible connection parameters", VNone);
    ("ansible_user", VStr "admin");
    ("ansible_password", VStr "Firelab33");
    ("ansible_network_os", VStr "cisco.nxos.nxos");
    ("ansible_connection", VStr "ansible.netcommon.network_cli");
    ("ansible_ssh_common_args", VStr "-o StrictHostKeyChecking=no") ].

(** ** Emitters *)

(** The line feed, written [\n] in the script. *)
Definition LF : string := String (Ascii.ascii_of_nat 10) "".

(** An open text file is the text written to it so far. *)
Definition f_write (f : string) (text : string) : string := f +:+ text.

(** [Path(dir) / name], for a directory and a file name without separators. *)
Definition path_join (dir name : string) : string := dir +:+ "/" +:+ name.

Section yaml.
(** [yaml.dump(data, default_flow_style=False, indent=2)] of PyYAML, as
    the text it sends to the stream. *)
Variable yaml_dump : value → string.

(** The body of the loop over [host_vars.items()]. *)
Definition host_vars_write_item (f : string) (item : string * value) : string :=
  let '(key, value) := item in
  if is_none value then f_write f (LF +:+ key +:+ LF)
  else f_write f (yaml_dump (VDict [(KStr key, value)])).

(** One iteration of the loop over the devices in
    [create_host_vars_files]. *)
Definition write_host_vars_file (output_dir : string)
    (fs : gmap string string) (device : DeviceRecord) : gmap string string :=
  let hostname := device.(hostname) in
  let host_vars := generate_host_vars device in
  let file_path := path_join output_dir (hostname +:+ ".yml") in
  let f := "" in
  let f := f_write f ("---" +:+ LF) in
  let f := fold_left host_vars_write_item host_vars f in
  <[file_path := f]> fs.

Definition create_host_vars_files (devices : list DeviceRecord)
    (output_dir : string) (fs : gmap string string) : gmap string string :=
  fold_left (write_host_vars_file output_dir) devices fs.

(** The body of the loop over [group_vars.items()]. *)
Definition group_vars_write_item (f : string) (item : string * value) : string :=
  let '(key, value) := item in
  if is_none value then f_write f (LF +:+ key +:+ LF)
  else f_write f (yaml_dump (VDict [(KStr key, value)])).

Definition create_group_vars (fs : gmap string string) : gmap string string :=
  let file_path := path_join "group_vars" "all.yml" in
  let f := "" in
  let f := f_write f ("---" +:+ LF) in
  let f := fold_left group_vars_write_item group_vars f in
  <[file_path := f]> fs.
End yaml.

(** [device.get('mgmt', 'ansible_host_not_set')] followed by the line of the
    device. *)
Definition inventory_line (device : DeviceRecord) : string :=
  let mgmt_ip := default "ansible_host_not_set" device.(mgmt) in
  device.(hostname) +:+ " ansible_host=" +:+ mgmt_ip +:+ LF.

(** [for device in devices: inventory_content += line]. *)
Definition add_inventory_lines (inventory_content : string)
    (devices : list DeviceRecord) : string :=
  fold_left (λ content device, content +:+ inventory_line device)
    devices inventory_content.

(** The loop that fills [buildings], from a given state of the dict. *)
Fixpoint group_by_building_from (buildings : list (string * list DeviceRecord))
    (devices : list DeviceRecord) : option (list (string * list DeviceRecord)) :=
  match devices with
  | [] => Some buildings
  | device :: devices' =>
      match extract_building device.(hostname) with
      | Some building =>
          if truthy_str building then
            buildings' ← dict_append buildings building device;
            group_by_building_from buildings' devices'
          else group_by_building_from buildings devices'
      | None => group_by_building_from buildings devices'
      end
  end.

Definition group_by_building (devices : list DeviceRecord)
    : option (list (string * list DeviceRecord)) :=
  group_by_building_from [("st1", []); ("st2", []); ("st3", [])] devices.

Definition inventory_header : string :=
  "# Multi-Building Campus EVPN Lab Inventory
# 4 Superspines + 3 Buildings with selective VLAN stretching

[superspines]
".

Definition inventory_footer : string :=
  "
# Hierarchical groups
[all:children]
superspines
spines
leafs

# Device type groups for targeted playbook runs
[route_reflectors:children]
superspines

[vtep_devices:children]
spines
leafs

# Building groups for VLAN-specific deployments
[building_st1:children]
st1

[building_st2:children]
st2

[building_st3:children]
st3
".

(** The text [create_inventory_file] writes to [inventory.ini]. *)
Definition inventory_content (devices : list DeviceRecord) : option string :=
  let superspines :=
    filter (λ d, determine_device_type d.(hostname) = "superspine") devices in
  let spines :=
    filter (λ d, determine_device_type d.(hostname) = "spine") devices in
  let leafs :=
    filter (λ d, determine_device_type d.(hostname) = "leaf") devices in
  buildings ← group_by_building devices;
  let content := inventory_header in
  let content := add_inventory_lines content superspines in
  let content := content +:+ LF +:+ "[spines]" +:+ LF in
  let content := add_inventory_lines content spines in
  let content := content +:+ LF +:+ "[leafs]" +:+ LF in
  let content := add_inventory_lines content leafs in
  let content :=
    fold_left (λ content item,
        let '(building, devices_in_building) := item in
        if truthy_list devices_in_building then
          add_inventory_lines (content +:+ LF +:+ "[" +:+ building +:+ "]" +:+ LF)
            devices_in_building
        else content)
      buildings content in
  Some (content +:+ inventory_footer).

Definition create_inventory_file (devices : list DeviceRecord)
    (fs : gmap string string) : option (gmap string string) :=
  content ← inventory_content devices;
  Some (<["inventory.ini" := content]> fs).

Definition readme_content : string :=
  "# Multi-Building Campus EVPN Lab
Generated Ansible files for your GNS3 lab topology.

## Topology Overview
- **4 Superspines**: Route Reflectors only (dub-ssp1-4)
- **3 Buildings**: Connected via dark fiber
  - Building st1: VLANs 100, 200, 300
  - Building st2: VLANs 200, 300, 400  
  - Building st3: VLANs 100, 300, 400

## VLAN Stretching Design
- VLAN 100: st1 ↔ st3
- VLAN 200: st1 ↔ st2
- VLAN 300: st1 ↔ st2 ↔ st3 (global)
- VLAN 400: st2 ↔ st3

## Usage Examples

### Test connectivity
```bash
ansible all -i inventory.ini -m ping
```

### Configure loopbacks (underlay foundation)
```bash
ansible-playbook -i inventory.ini loopback_config.yml -v
```

### Deploy BGP EVPN (overlay)
```bash
ansible-playbook -i inventory.ini bgp_evpn_config.yml -v
```

### Target specific device types
```bash
ansible-playbook -i inventory.ini playbook.yml --limit superspines
ansible-playbook -i inventory.ini playbook.yml --limit building_st1
ansible-playbook -i inventory.ini playbook.yml --limit vtep_devices
```

### Dry run (check mode)
```bash
ansible-playbook -i inventory.ini playbook.yml --check
```

## File Structure
```
├── host_vars/          # Individual device variables
│   ├── dub-ssp1.yml
│   ├── dub-st1-sp1.yml
│   └── ...
├── group_vars/         # Global variables
│   └── all.yml
├── inventory.ini       # Device inventory
└── README.md          # This file
```

## Next Steps
1. Update management IP addresses in inventory.ini if needed
2. Test basic connectivity with ping module
3. Deploy underlay configuration (OSPF + loopbacks)
4. Deploy overlay configuration (BGP EVPN)
5. Add access layer configuration per building
".

Definition create_readme (fs : gmap string string) : gmap string string :=
  <["README.md" := readme_content]> fs.

(** [main], as a transformation of the files under the working directory. *)
Definition main (yaml_dump : value → string) (fs : gmap string string)
    : option (gmap string string) :=
  let fs := create_host_vars_files yaml_dump devices_data "host_vars" fs in
  let fs := create_group_vars yaml_dump fs in
  fs ← create_inventory_file devices_data fs;
  Some (create_readme fs).

(** ** Notions used to state the properties *)

(** An entry of a VLAN-to-VNI dict that obeys [VNI = VLAN + 10000]. *)
Definition vni_entry (kv : key * value) : Prop :=
  ∃ vlan : Z, kv = (KInt vlan, VInt (vlan + 10000)).

(** The entry the dict comprehension of [generate_host_vars] makes of a
    VLAN. *)
Definition vni_item (vlan : Z) : key * value := (KInt vlan, VInt (vlan + 10000)).

(** [text.split(LF)]. *)
Fixpoint lines (text : string) : list string :=
  match text with
  | EmptyString => [""]
  | String c text' =>
      if Ascii.eqb c (Ascii.ascii_of_nat 10) then "" :: lines text'
      else match lines text' with
           | [] => [String c ""]
           | l :: ls => String c l :: ls
           end
  end.

(** Reading an inventory in INI format: the entries of the section [name]
    are the lines after the header [[name]] up to the next header, blank
    lines and comments apart. *)
Fixpoint after_header (header : string) (ls : list string) : list string :=
  match ls with
  | [] => []
  | l :: ls' => if String.eqb l header then ls' else after_header header ls'
  end.

Fixpoint until_header (ls : list string) : list string :=
  match ls with
  | [] => []
  | l :: ls' => if Str.starts_with "[" l then [] else l :: until_header ls'
  end.

Definition is_entry (l : string) : bool :=
  negb (String.eqb l "") && negb (Str.starts_with "#" l).

Definition section_entries (name text : string) : list string :=
  List.filter is_entry
    (until_header (after_header ("[" +:+ name +:+ "]") (lines text))).

(** The rendering rule of the emitters as the specification words it: a
    sentinel entry is a blank line followed by the comment text, any other
    entry is the YAML serialization of the single pair. *)
Definition render_entry (yaml_dump : value → string) (item : string * value) : string :=
  match item.2 with
  | VNone => LF +:+ item.1 +:+ LF
  | v => yaml_dump (VDict [(KStr item.1, v)])
  end.

(** The document: the start marker, then the entries in insertion order. *)
Definition render_mapping (yaml_dump : value → string)
    (mapping : list (string * value)) : string :=
  "---" +:+ LF +:+ Str.concat (render_entry yaml_dump <$> mapping).

(** The file of a device under [host_vars]. *)
Definition host_vars_path (device : DeviceRecord) : string :=
  path_join "host_vars" (device.(hostname) +:+ ".yml").

(** The files the generator writes, whatever was there before: what a run
    leaves in an empty directory. *)
Definition generated_files (yaml_dump : value → string) : gmap string string :=
  create_readme
    (<["inventory.ini" := default "" (inventory_content devices_data)]>
       (create_group_vars yaml_dump
          (create_host_vars_files yaml_dump devices_data "host_vars" ∅))).

(** ** Notions used for the further properties *)

(** An ordered mapping keeps the discipline of the sentinel when the
    entries with the value [None] are exactly those whose key starts with
    the comment sign. *)
Definition sentinel_ok (mapping : list (string * value)) : bool :=
  forallb (λ item : string * value,
             Bool.eqb (is_none item.2) (Str.starts_with "#" item.1)) mapping.

(** The line of a device in the inventory, without its line feed. *)
Definition inventory_entry (device : DeviceRecord) : string :=
  device.(hostname) +:+ " ansible_host=" +:+
  default "ansible_host_not_set" device.(mgmt).

(** A device whose inventory line can be read back: no line feed in the
    host name or in the management address, and a host name that starts
    neither a section header nor a comment. *)
Definition inventory_wf (device : DeviceRecord) : bool :=
  negb (LF in_str device.(hostname)) &&
  negb (LF in_str default "ansible_host_not_set" device.(mgmt)) &&
  negb (Str.starts_with "[" device.(hostname)) &&
  negb (Str.starts_with "#" device.(hostname)).

(** A text made of lines, each closed by a line feed. *)
Definition unlines (ls : list string) : string :=
  Str.concat ((λ l, l +:+ LF) <$> ls).

(** The lines of the section of a building: none for an empty bucket. *)
Definition building_section (building : string)
    (devices_in_building : list DeviceRecord) : list string :=
  if truthy_list devices_in_building then
    [""; "[" +:+ building +:+ "]"] ++ (inventory_entry <$> devices_in_building)
  else [].

(** The devices of a type and of a building, as the comprehensions and the
    grouping loop of [create_inventory_file] select them. *)
Definition of_type (ty : string) (devices : list DeviceRecord) : list DeviceRecord :=
  filter (λ d, determine_device_type d.(hostname) = ty) devices.

Definition of_building (b : string) (devices : list DeviceRecord) : list DeviceRecord :=
  filter (λ d, extract_building d.(hostname) = Some b) devices.

(** The lines of the fixed end of the inventory. *)
Definition inventory_footer_lines : list string :=
  [ ""; "# Hierarchical groups"; "[all:children]"; "superspines"; "spines"; "leafs";
    ""; "# Device type groups for targeted playbook runs";
    "[route_reflectors:children]"; "superspines";
    ""; "[vtep_devices:children]"; "spines"; "leafs";
    ""; "# Building groups for VLAN-specific deployments";
    "[building_st1:children]"; "st1";
    ""; "[building_st2:children]"; "st2";
    ""; "[building_st3:children]"; "st3" ].

(** All the lines of the inventory of a list of devices. *)
Definition inventory_lines (devices : list DeviceRecord) : list string :=
  [ "# Multi-Building Campus EVPN Lab Inventory";
    "# 4 Superspines + 3 Buildings with selective VLAN stretching";
    ""; "[superspines]" ] ++
  (inventory_entry <$> of_type "superspine" devices) ++
  [""; "[spines]"] ++ (inventory_entry <$> of_type "spine" devices) ++
  [""; "[leafs]"] ++ (inventory_entry <$> of_type "leaf" devices) ++
  building_section "st1" (of_building "st1" devices) ++
  building_section "st2" (of_building "st2" devices) ++
  building_section "st3" (of_building "st3" devices) ++
  inventory_footer_lines.

(** A tail of lines that ends the section before it: up to the next header
    it holds no entry. *)
Fixpoint closes_section (ls : list string) : bool :=
  match ls with
  | [] => false
  | l :: ls' =>
      if Str.starts_with "[" l then true else negb (is_entry l) && closes_section ls'
  end.

(** A line that is an entry of a section. *)
Definition entry_line (l : string) : bool :=
  is_entry l && negb (Str.starts_with "[" l).

(** ** Lemmas on strings *)

Lemma append_cons c (s t : string) : String c s +:+ t = String c (s +:+ t).
Proof. reflexivity. Qed.

Lemma append_empty (t : string) : "" +:+ t = t.
Proof. reflexivity. Qed.

Lemma append_assoc (s t u : string) : (s +:+ t) +:+ u = s +:+ t +:+ u.
Proof. induction s as [|c s IH]; [done|]. rewrite !append_cons. by f_equal. Qed.

Lemma starts_with_spec p s :
  Str.starts_with p s = true ↔ ∃ post, s = p +:+ post.
Proof.
  revert s. induction p as [|a p IH]; intros s; simpl.
  - split; [intros _; by exists s | done].
  - destruct s as [|b s].
    + split; [done | intros [post H]; discriminate].
    + setoid_rewrite append_cons. destruct (decide (a = b)) as [->|Hne].
      * rewrite IH. split; intros [post H]; exists post; congruence.
      * split; [done | intros [post H]; congruence].
Qed.

Lemma contains_spec needle s :
  Str.contains needle s = true ↔ Str.Substring needle s.
Proof.
  unfold Str.Substring. induction s as [|c s IH]; simpl.
  - rewrite orb_false_r, starts_with_spec. split.
    + intros [post H]. by exists "", post.
    + intros ([|a pre] & post & H); [by exists post | discriminate].
  - rewrite orb_true_iff, starts_with_spec, IH. split.
    + intros [[post H] | (pre & post & H)].
      * by exists "", post.
      * exists (String c pre), post. rewrite append_cons. by rewrite H.
    + intros ([|a pre] & post & H).
      * left. by exists post.
      * right. exists pre, post. rewrite append_cons in H. congruence.
Qed.

Lemma contains_false needle s :
  Str.contains needle s = false ↔ ¬ Str.Substring needle s.
Proof.
  rewrite <- contains_spec. destruct (Str.contains needle s); split; done.
Qed.

(** ** Dicts and static texts, on examples *)

(** An update keeps the place of a key that is there and puts new keys
    last, as in CPython. *)
Example dict_update_order :
  dict_update [("a", 1); ("b", 2)] [("c", 3); ("a", 4)] = [("a", 4); ("b", 2); ("c", 3)].
Proof. reflexivity. Qed.

(** A missing key is the [KeyError] of [d[k].append(x)]. *)
Example dict_append_missing :
  dict_append [("st1", [1])] "st9" 2 = None ∧
  dict_append [("st1", [1])] "st1" 2 = Some [("st1", [1; 2])].
Proof. split; reflexivity. Qed.

(** The documentation has the 1705 bytes of the text in the script. *)
Example readme_length : String.length readme_content = 1705%nat.
Proof. reflexivity. Qed.

(** ** The classifier *)

Lemma determine_device_type_cases h :
  determine_device_type h = "superspine" ∨ determine_device_type h = "spine" ∨
  determine_device_type h = "leaf" ∨ determine_device_type h = "unknown".
Proof.
  unfold determine_device_type.
  destruct ("-ssp" in_str h), ("-sp" in_str h), ("-lf" in_str h); simpl; auto.
Qed.

Lemma extract_building_cases h :
  extract_building h = None ∨ extract_building h = Some "st1" ∨
  extract_building h = Some "st2" ∨ extract_building h = Some "st3".
Proof.
  unfold extract_building.
  destruct ("-st1-" in_str h), ("-st2-" in_str h), ("-st3-" in_str h); auto.
Qed.

(** C2. The device type of a host name is [superspine] when the name
    contains [-ssp]; otherwise [spine] when it contains [-sp]; otherwise
    [leaf] when it contains [-lf]; otherwise [unknown].  The three sample
    names of the specification are classified as it says. *)
Theorem determine_device_type_spec (h : string) :
  (Str.Substring "-ssp" h → determine_device_type h = "superspine") ∧
  (¬ Str.Substring "-ssp" h → Str.Substring "-sp" h →
     determine_device_type h = "spine") ∧
  (¬ Str.Substring "-ssp" h → ¬ Str.Substring "-sp" h → Str.Substring "-lf" h →
     determine_device_type h = "leaf") ∧
  (¬ Str.Substring "-ssp" h → ¬ Str.Substring "-sp" h → ¬ Str.Substring "-lf" h →
     determine_device_type h = "unknown") ∧
  determine_device_type "dub-ssp1" = "superspine" ∧
  determine_device_type "dub-st1-sp1" = "spine" ∧
  determine_device_type "dub-st1-lf1" = "leaf".
Proof.
  unfold determine_device_type. rewrite <- !contains_false, <- !contains_spec.
  destruct ("-ssp" in_str h), ("-sp" in_str h), ("-lf" in_str h);
    repeat split; intros; try reflexivity; discriminate.
Qed.

Lemma determine_device_type_spec_witness :
  ¬ Str.Substring "-ssp" "dub-st2-sp2" ∧ Str.Substring "-sp" "dub-st2-sp2" ∧
  determine_device_type "dub-st2-sp2" = "spine".
Proof.
  assert (Hn : ¬ Str.Substring "-ssp" "dub-st2-sp2")
    by (apply contains_false; reflexivity).
  assert (Hs : Str.Substring "-sp" "dub-st2-sp2")
    by (apply contains_spec; reflexivity).
  split; [exact Hn|]. split; [exact Hs|].
  exact (proj1 (proj2 (determine_device_type_spec "dub-st2-sp2")) Hn Hs).
Defined.

(** C5, as stated, fails on a name that carries two building tokens: the
    name below contains [-st2-], yet the classifier answers [st1], the token
    tested first. *)
Lemma extract_building_two_tokens :
  Str.Substring "-st2-" "dub-st1-st2-lf1" ∧
  extract_building "dub-st1-st2-lf1" = Some "st1" ∧
  ¬ (extract_building "dub-st1-st2-lf1" = Some "st2"
     ↔ Str.Substring "-st2-" "dub-st1-st2-lf1").
Proof.
  assert (Hs : Str.Substring "-st2-" "dub-st1-st2-lf1")
    by (apply contains_spec; reflexivity).
  split; [exact Hs|]. split; [reflexivity|].
  intros [_ H]. specialize (H Hs). discriminate H.
Qed.

(** C5, amended.  The building of a host name is [st1] exactly when the
    name contains [-st1-]; [st2] exactly when it contains [-st2-] and not
    [-st1-]; [st3] exactly when it contains [-st3-] and neither of the other
    two; and none exactly when it contains none of the three.  The two
    sample names of the specification are classified as it says. *)
Theorem extract_building_spec (h : string) :
  (extract_building h = Some "st1" ↔ Str.Substring "-st1-" h) ∧
  (extract_building h = Some "st2" ↔
     Str.Substring "-st2-" h ∧ ¬ Str.Substring "-st1-" h) ∧
  (extract_building h = Some "st3" ↔
     Str.Substring "-st3-" h ∧ ¬ Str.Substring "-st1-" h ∧
     ¬ Str.Substring "-st2-" h) ∧
  (extract_building h = None ↔
     ¬ Str.Substring "-st1-" h ∧ ¬ Str.Substring "-st2-" h ∧
     ¬ Str.Substring "-st3-" h) ∧
  extract_building "dub-st2-lf2" = Some "st2" ∧
  extract_building "dub-ssp3" = None.
Proof.
  unfold extract_building. rewrite <- !contains_false, <- !contains_spec.
  destruct ("-st1-" in_str h), ("-st2-" in_str h), ("-st3-" in_str h);
    repeat split; try reflexivity; try discriminate; intuition discriminate.
Qed.

Lemma extract_building_spec_witness :
  Str.Substring "-st2-" "dub-st2-sp1" ∧ ¬ Str.Substring "-st1-" "dub-st2-sp1" ∧
  extract_building "dub-st2-sp1" = Some "st2".
Proof.
  assert (Hs : Str.Substring "-st2-" "dub-st2-sp1")
    by (apply contains_spec; reflexivity).
  assert (Hn : ¬ Str.Substring "-st1-" "dub-st2-sp1")
    by (apply contains_false; reflexivity).
  split; [exact Hs|]. split; [exact Hn|].
  exact (proj2 (proj1 (proj2 (extract_building_spec "dub-st2-sp1"))) (conj Hs Hn)).
Defined.

(** C6. [get_building_vlans] is a total lookup in a fixed table: the three
    buildings have the VLAN lists of the design, in that order, and any other
    argument has the empty list. *)
Theorem get_building_vlans_spec :
  get_building_vlans "st1" = [100; 200; 300] ∧
  get_building_vlans "st2" = [200; 300; 400] ∧
  get_building_vlans "st3" = [100; 300; 400] ∧
  ∀ building : string,
    building ≠ "st1" → building ≠ "st2" → building ≠ "st3" →
    get_building_vlans building = [].
Proof.
  repeat split; try reflexivity.
  intros b H1 H2 H3. unfold get_building_vlans, dict_get_default. simpl.
  repeat case_decide; congruence.
Qed.

Lemma get_building_vlans_spec_witness :
  "st4" ≠ "st1" ∧ "st4" ≠ "st2" ∧ "st4" ≠ "st3" ∧ get_building_vlans "st4" = [].
Proof.
  assert (H1 : "st4" ≠ "st1") by discriminate.
  assert (H2 : "st4" ≠ "st2") by discriminate.
  assert (H3 : "st4" ≠ "st3") by discriminate.
  split; [exact H1|]. split; [exact H2|]. split; [exact H3|].
  exact (proj2 (proj2 (proj2 get_building_vlans_spec)) "st4" H1 H2 H3).
Defined.

(** ** The variable builder *)

(** Case analysis on the type and the building of a device: afterwards
    the mapping of the device is a list with literal keys. *)
Ltac host_vars_cases device :=
  let h := fresh "h" in
  destruct device as [h ? ? ?];
  lazy beta iota zeta delta [generate_host_vars hostname loopback0 loopback1 mgmt];
  generalize (determine_device_type_cases h) (extract_building_cases h);
  generalize (determine_device_type h) (extract_building h);
  intros ? ? [->|[->|[->| ->]]] [->|[->|[->| ->]]].

(** The fields of the mapping of a device that depend on its type and on
    its building, read back from the mapping. *)
Lemma host_vars_fields (device : DeviceRecord) :
  let hv := generate_host_vars device in
  let ty := determine_device_type device.(hostname) in
  let b := extract_building device.(hostname) in
  dict_get hv "vtep_ip" =
    (if String.eqb ty "superspine" then None else Some (VStr device.(loopback1))) ∧
  dict_get hv "bgp_role" =
    Some (VStr (if String.eqb ty "superspine" then "route_reflector"
                else "route_reflector_client")) ∧
  dict_get hv "route_reflector_cluster_id" =
    (if String.eqb ty "superspine" then Some (VStr "1.1.1.1") else None) ∧
  dict_get hv "loopback_interfaces" =
    Some (VDict
      (if String.eqb ty "superspine" then
         [ (KStr "loopback0", VDict
              [ (KStr "description", VStr "Router-ID for OSPF and BGP Route Reflector");
                (KStr "ip_address", VStr (device.(loopback0) +:+ "/32")) ]) ]
       else
         [ (KStr "loopback0", VDict
              [ (KStr "description", VStr "Router-ID for OSPF and BGP");
                (KStr "ip_address", VStr (device.(loopback0) +:+ "/32")) ]);
           (KStr "loopback1", VDict
              [ (KStr "description", VStr "VTEP Loopback for VXLAN");
                (KStr "ip_address", VStr (device.(loopback1) +:+ "/32")) ]) ])) ∧
  dict_get hv "building" = VStr <$> b ∧
  dict_get hv "vlans" = (λ b, VList (VInt <$> get_building_vlans b)) <$> b ∧
  dict_get hv "vni_mappings" =
    (if str_in_list ty ["spine"; "leaf"]
     then (λ b, VDict (vni_item <$> get_building_vlans b)) <$> b
     else None).
Proof.
  host_vars_cases device; vm_compute; repeat split; reflexivity.
Qed.

Lemma str_in_spine_leaf (ty : string) :
  str_in_list ty ["spine"; "leaf"] = true ↔ ty = "spine" ∨ ty = "leaf".
Proof.
  unfold str_in_list, existsb.
  rewrite orb_false_r, orb_true_iff, !String.eqb_eq. done.
Qed.

Lemma extract_building_truthy h b :
  extract_building h = Some b → b = "st1" ∨ b = "st2" ∨ b = "st3".
Proof.
  destruct (extract_building_cases h) as [E|[E|[E|E]]]; rewrite E;
    intros [= <-]; auto.
Qed.

Lemma resolved_building_has_vlans h b :
  extract_building h = Some b → get_building_vlans b ≠ [].
Proof.
  intros H. by destruct (extract_building_truthy _ _ H) as [->|[->| ->]].
Qed.

Lemma vni_item_entry (vlans : list Z) : Forall vni_entry (vni_item <$> vlans).
Proof. apply Forall_fmap, Forall_forall. intros v _. by exists v. Qed.

(** C1. [VNI = VLAN + 10000] in both scopes.  Whenever the mapping of a
    device has a [vni_mappings] field, the field is a dict whose every entry
    maps a VLAN [v] to [v + 10000]; a spine or leaf with a resolved building
    has the field, and it is not empty; and every entry of the global table
    [global_vni_mappings] maps a VLAN [v] to [v + 10000]. *)
Theorem vni_is_vlan_plus_10000 :
  (∀ (device : DeviceRecord) (m : value),
     dict_get (generate_host_vars device) "vni_mappings" = Some m →
     ∃ entries, m = VDict entries ∧ Forall vni_entry entries) ∧
  (∀ device : DeviceRecord,
     determine_device_type device.(hostname) = "spine" ∨
     determine_device_type device.(hostname) = "leaf" →
     is_Some (extract_building device.(hostname)) →
     ∃ entries,
       dict_get (generate_host_vars device) "vni_mappings" = Some (VDict entries) ∧
       entries ≠ [] ∧ Forall vni_entry entries) ∧
  (∃ entries,
     dict_get group_vars "global_vni_mappings" = Some (VDict entries) ∧
     entries ≠ [] ∧ Forall vni_entry entries).
Proof.
  split; [|split].
  - intros device m.
    destruct (host_vars_fields device) as (_ & _ & _ & _ & _ & _ & ->).
    destruct (str_in_list _ _); [|done].
    destruct (extract_building _) as [b|]; [|done].
    intros [= <-]. eexists. split; [done|]. apply vni_item_entry.
  - intros device Hty [b Hb].
    destruct (host_vars_fields device) as (_ & _ & _ & _ & _ & _ & ->).
    apply str_in_spine_leaf in Hty. rewrite Hty, Hb. simpl.
    eexists. split; [done|]. split; [|apply vni_item_entry].
    apply resolved_building_has_vlans in Hb.
    by destruct (get_building_vlans b).
  - eexists. split; [reflexivity|]. split; [done|].
    exact (vni_item_entry [100; 200; 300; 400]).
Qed.

Lemma vni_is_vlan_plus_10000_witness :
  (determine_device_type "dub-st1-lf1" = "spine" ∨
   determine_device_type "dub-st1-lf1" = "leaf") ∧
  is_Some (extract_building "dub-st1-lf1") ∧
  ∃ entries,
    dict_get
      (generate_host_vars
         (mk_device "dub-st1-lf1" "10.10.10.11" "20.20.20.11" (Some "1.1.1.11")))
      "vni_mappings" = Some (VDict entries) ∧
    entries ≠ [] ∧ Forall vni_entry entries.
Proof.
  assert (Hty : determine_device_type "dub-st1-lf1" = "spine" ∨
                determine_device_type "dub-st1-lf1" = "leaf")
    by (right; reflexivity).
  assert (Hb : is_Some (extract_building "dub-st1-lf1"))
    by (exists "st1"; reflexivity).
  split; [exact Hty|]. split; [exact Hb|].
  exact (proj1 (proj2 vni_is_vlan_plus_10000)
           (mk_device "dub-st1-lf1" "10.10.10.11" "20.20.20.11" (Some "1.1.1.11"))
           Hty Hb).
Defined.

(** The example of the specification: in building st1, VLAN 300 has VNI
    10300. *)
Example vni_of_vlan_300_in_st1 :
  ∃ entries,
    dict_get
      (generate_host_vars
         (mk_device "dub-st1-lf1" "10.10.10.11" "20.20.20.11" (Some "1.1.1.11")))
      "vni_mappings" = Some (VDict entries) ∧
    dict_get entries (KInt 300) = Some (VInt 10300).
Proof. eexists. split; reflexivity. Qed.

(** C3. For every device of the catalog: a superspine has no [vtep_ip]
    field and has the route-reflector fields, [bgp_role = route_reflector]
    and [route_reflector_cluster_id]; a spine or a leaf has a [vtep_ip] field
    equal to its [loopback1] and no [route_reflector_cluster_id] field. *)
Theorem catalog_role_fields (device : DeviceRecord) :
  device ∈ devices_data →
  let hv := generate_host_vars device in
  (determine_device_type device.(hostname) = "superspine" →
     dict_get hv "vtep_ip" = None ∧
     dict_get hv "bgp_role" = Some (VStr "route_reflector") ∧
     is_Some (dict_get hv "route_reflector_cluster_id")) ∧
  (determine_device_type device.(hostname) = "spine" ∨
   determine_device_type device.(hostname) = "leaf" →
     dict_get hv "vtep_ip" = Some (VStr device.(loopback1)) ∧
     dict_get hv "route_reflector_cluster_id" = None).
Proof.
  intros _ hv.
  destruct (host_vars_fields device) as (Hv & Hr & Hc & _). fold hv in Hv, Hr, Hc.
  rewrite Hv, Hr, Hc. split.
  - intros ->. simpl. eauto.
  - intros [-> | ->]; done.
Qed.

Lemma catalog_role_fields_witness :
  (mk_device "dub-st3-sp2" "10.10.10.10" "20.20.20.10" (Some "1.1.1.10") ∈ devices_data ∧
   (determine_device_type "dub-st3-sp2" = "spine" ∨
    determine_device_type "dub-st3-sp2" = "leaf") ∧
   dict_get
     (generate_host_vars
        (mk_device "dub-st3-sp2" "10.10.10.10" "20.20.20.10" (Some "1.1.1.10")))
     "vtep_ip" = Some (VStr "20.20.20.10")) ∧
  (mk_device "dub-ssp2" "10.10.10.2" "20.20.20.2" (Some "1.1.1.2") ∈ devices_data ∧
   determine_device_type "dub-ssp2" = "superspine" ∧
   dict_get
     (generate_host_vars
        (mk_device "dub-ssp2" "10.10.10.2" "20.20.20.2" (Some "1.1.1.2")))
     "vtep_ip" = None).
Proof.
  assert (Hin : mk_device "dub-st3-sp2" "10.10.10.10" "20.20.20.10" (Some "1.1.1.10")
                ∈ devices_data)
    by (apply list_elem_of_In; vm_compute; tauto).
  assert (Hty : determine_device_type "dub-st3-sp2" = "spine" ∨
                determine_device_type "dub-st3-sp2" = "leaf")
    by (left; reflexivity).
  assert (Hin' : mk_device "dub-ssp2" "10.10.10.2" "20.20.20.2" (Some "1.1.1.2")
                 ∈ devices_data)
    by (apply list_elem_of_In; vm_compute; tauto).
  assert (Hty' : determine_device_type "dub-ssp2" = "superspine") by reflexivity.
  split.
  - split; [exact Hin|]. split; [exact Hty|].
    exact (proj1 (proj2 (catalog_role_fields _ Hin) Hty)).
  - split; [exact Hin'|]. split; [exact Hty'|].
    exact (proj1 (proj1 (catalog_role_fields _ Hin') Hty')).
Defined.

(** The same holds for the types of all the devices of the catalog at
    once: four superspines as route reflectors, twelve VTEP devices. *)
Lemma catalog_types :
  determine_device_type <$> (hostname <$> devices_data) =
  replicate 4 "superspine" ++
  concat (replicate 3 (replicate 2 "spine" ++ replicate 2 "leaf")).
Proof. reflexivity. Qed.

(** C4. The fields [building] and [vlans] are in the mapping of a device
    exactly when a building was resolved from its host name, and then hold
    that building and its VLAN list; the field [vni_mappings] is there exactly
    when the device is a spine or a leaf and the resolved building has a
    non-empty VLAN list, and then holds one entry per VLAN of the building, in
    the order of the building's list. *)
Theorem building_and_vni_fields (device : DeviceRecord) :
  let hv := generate_host_vars device in
  let h := device.(hostname) in
  (is_Some (dict_get hv "building") ↔ is_Some (extract_building h)) ∧
  (is_Some (dict_get hv "vlans") ↔ is_Some (extract_building h)) ∧
  (∀ b, extract_building h = Some b →
     dict_get hv "building" = Some (VStr b) ∧
     dict_get hv "vlans" = Some (VList (VInt <$> get_building_vlans b))) ∧
  (is_Some (dict_get hv "vni_mappings") ↔
     (determine_device_type h = "spine" ∨ determine_device_type h = "leaf") ∧
     ∃ b, extract_building h = Some b ∧ get_building_vlans b ≠ []) ∧
  (∀ b m, extract_building h = Some b →
     dict_get hv "vni_mappings" = Some m →
     m = VDict ((λ vlan, (KInt vlan, VInt (vlan + 10000))) <$> get_building_vlans b)).
Proof.
  intros hv h.
  destruct (host_vars_fields device) as (_ & _ & _ & _ & Hb & Hv & Hm).
  fold hv h in Hb, Hv, Hm. rewrite Hb, Hv, Hm. clear Hb Hv Hm.
  split; [apply fmap_is_Some|]. split; [apply fmap_is_Some|].
  split; [by intros b ->|]. split; [split|].
  - intros H. destruct (str_in_list _ _) eqn:Hty; [|by destruct H].
    apply str_in_spine_leaf in Hty. split; [done|].
    destruct (extract_building h) as [b|] eqn:E; [|by destruct H].
    exists b. split; [done|]. by eapply resolved_building_has_vlans.
  - intros [Hty (b & -> & _)]. apply str_in_spine_leaf in Hty. by rewrite Hty.
  - intros b m ->. destruct (str_in_list _ _); [|done]. by intros [= <-].
Qed.

Lemma building_and_vni_fields_witness :
  extract_building "dub-st2-lf2" = Some "st2" ∧
  dict_get
    (generate_host_vars
       (mk_device "dub-st2-lf2" "10.10.10.14" "20.20.20.14" (Some "1.1.1.14")))
    "building" = Some (VStr "st2") ∧
  dict_get
    (generate_host_vars
       (mk_device "dub-st2-lf2" "10.10.10.14" "20.20.20.14" (Some "1.1.1.14")))
    "vlans" = Some (VList (VInt <$> get_building_vlans "st2")).
Proof.
  assert (Hb : extract_building "dub-st2-lf2" = Some "st2") by reflexivity.
  split; [exact Hb|].
  exact (proj1 (proj2 (proj2 (building_and_vni_fields
           (mk_device "dub-st2-lf2" "10.10.10.14" "20.20.20.14" (Some "1.1.1.14")))))
           "st2" Hb).
Defined.

(** A superspine named after a building gets the building fields and no
    VNI mappings. *)
Example superspine_in_building :
  let hv := generate_host_vars (mk_device "dub-st1-ssp1" "a" "b" None) in
  dict_get hv "building" = Some (VStr "st1") ∧ dict_get hv "vni_mappings" = None.
Proof. split; reflexivity. Qed.

(** C10. A device whose host name matches none of the type patterns is
    handled by the branch of the VTEP devices: its mapping has [vtep_ip] equal
    to its [loopback1], [bgp_role = route_reflector_client] and the two
    loopback interfaces [loopback0] and [loopback1]; it has none of the
    fields of a route reflector. *)
Theorem unknown_type_is_vtep (device : DeviceRecord) :
  determine_device_type device.(hostname) = "unknown" →
  let hv := generate_host_vars device in
  dict_get hv "vtep_ip" = Some (VStr device.(loopback1)) ∧
  dict_get hv "bgp_role" = Some (VStr "route_reflector_client") ∧
  dict_get hv "route_reflector_cluster_id" = None ∧
  dict_get hv "loopback_interfaces" =
    Some (VDict
      [ (KStr "loopback0", VDict
           [ (KStr "description", VStr "Router-ID for OSPF and BGP");
             (KStr "ip_address", VStr (device.(loopback0) +:+ "/32")) ]);
        (KStr "loopback1", VDict
           [ (KStr "description", VStr "VTEP Loopback for VXLAN");
             (KStr "ip_address", VStr (device.(loopback1) +:+ "/32")) ]) ]).
Proof.
  intros Hty hv.
  destruct (host_vars_fields device) as (Hv & Hr & Hc & Hl & _).
  fold hv in Hv, Hr, Hc, Hl. rewrite Hv, Hr, Hc, Hl, Hty. done.
Qed.

Lemma unknown_type_is_vtep_witness :
  determine_device_type "dub-fw1" = "unknown" ∧
  dict_get (generate_host_vars (mk_device "dub-fw1" "10.10.10.99" "20.20.20.99" None))
    "vtep_ip" = Some (VStr "20.20.20.99") ∧
  dict_get (generate_host_vars (mk_device "dub-fw1" "10.10.10.99" "20.20.20.99" None))
    "bgp_role" = Some (VStr "route_reflector_client").
Proof.
  assert (Hty : determine_device_type "dub-fw1" = "unknown") by reflexivity.
  split; [exact Hty|].
  pose proof (unknown_type_is_vtep
                (mk_device "dub-fw1" "10.10.10.99" "20.20.20.99" None) Hty)
    as (Hv & Hr & _).
  split; [exact Hv | exact Hr].
Defined.

(** ** The inventory *)

(** The grouping by building never meets a missing key: a resolved
    building is one of the three keys the dict starts with. *)
Lemma dict_append_is_Some {A} (d : list (string * list A)) (k : string) (x : A) :
  is_Some (dict_get d k) → is_Some (dict_append d k x).
Proof.
  induction d as [|[k' l] d IH]; simpl; [by intros [? ?]|].
  case_decide; [by eexists|]. intros Hd. destruct (IH Hd) as [d' ->]. by eexists.
Qed.

Lemma dict_append_keys {A} (d d' : list (string * list A)) (k : string) (x : A) :
  dict_append d k x = Some d' → d'.*1 = d.*1.
Proof.
  revert d'. induction d as [|[k' l] d IH]; simpl; intros d'; [done|].
  case_decide; [by intros [= <-]|].
  destruct (dict_append d k x) as [d''|]; simpl; [|done].
  intros [= <-]. simpl. f_equal. by apply IH.
Qed.

Lemma dict_get_is_Some_keys {A} (d : list (string * A)) (k : string) :
  is_Some (dict_get d k) ↔ k ∈ d.*1.
Proof.
  induction d as [|[k' l] d IH]; simpl.
  - split; [by intros [? ?] | by intros ?%elem_of_nil].
  - rewrite elem_of_cons, <- IH. case_decide; subst; split; eauto.
    intros [->|?]; done.
Qed.

Lemma group_by_building_from_total (devices : list DeviceRecord) buildings :
  buildings.*1 = ["st1"; "st2"; "st3"] →
  ∃ buildings', group_by_building_from buildings devices = Some buildings' ∧
                buildings'.*1 = ["st1"; "st2"; "st3"].
Proof.
  revert buildings. induction devices as [|device devices IH]; intros bs Hk; simpl.
  - by exists bs.
  - destruct (extract_building _) as [b|] eqn:Eb; [|by apply IH].
    destruct (truthy_str b); [|by apply IH].
    destruct (dict_append_is_Some bs b device) as [bs' Hbs'].
    { apply dict_get_is_Some_keys. rewrite Hk.
      destruct (extract_building_truthy _ _ Eb) as [->|[->| ->]]; set_solver. }
    rewrite Hbs'. simpl. apply IH. by rewrite (dict_append_keys _ _ _ _ Hbs').
Qed.

(** The inventory is produced for every list of devices. *)
Lemma inventory_content_total (devices : list DeviceRecord) :
  is_Some (inventory_content devices).
Proof.
  unfold inventory_content, group_by_building.
  destruct (group_by_building_from_total devices
              [("st1", []); ("st2", []); ("st3", [])] eq_refl) as (bs & -> & _).
  by eexists.
Qed.

(** C7. The catalog has 16 device records, each of them is a superspine,
    a spine or a leaf, and the inventory generated from it lists 4 entries
    under [superspines], 6 under [spines], 6 under [leafs] and 4 under each
    of [st1], [st2] and [st3]. *)
Theorem catalog_inventory_counts :
  length devices_data = 16%nat ∧
  Forall (λ device,
      determine_device_type device.(hostname) = "superspine" ∨
      determine_device_type device.(hostname) = "spine" ∨
      determine_device_type device.(hostname) = "leaf") devices_data ∧
  ∃ text,
    inventory_content devices_data = Some text ∧
    length (section_entries "superspines" text) = 4%nat ∧
    length (section_entries "spines" text) = 6%nat ∧
    length (section_entries "leafs" text) = 6%nat ∧
    length (section_entries "st1" text) = 4%nat ∧
    length (section_entries "st2" text) = 4%nat ∧
    length (section_entries "st3" text) = 4%nat.
Proof.
  split; [reflexivity|]. split.
  - repeat (apply List.Forall_cons; [vm_compute; tauto|]). apply List.Forall_nil.
  - destruct (inventory_content devices_data) as [text|] eqn:E;
      [|by vm_compute in E].
    exists text. split; [done|].
    vm_compute in E. injection E as <-. vm_compute. done.
Qed.

(** The entries themselves, for two of the sections. *)
Example inventory_superspines :
  section_entries "superspines" <$> inventory_content devices_data =
  Some [ "dub-ssp1 ansible_host=1.1.1.1"; "dub-ssp2 ansible_host=1.1.1.2";
         "dub-ssp3 ansible_host=1.1.1.3"; "dub-ssp4 ansible_host=1.1.1.4" ].
Proof. reflexivity. Qed.

Example inventory_st2 :
  section_entries "st2" <$> inventory_content devices_data =
  Some [ "dub-st2-sp1 ansible_host=1.1.1.7"; "dub-st2-sp2 ansible_host=1.1.1.8";
         "dub-st2-lf1 ansible_host=1.1.1.13"; "dub-st2-lf2 ansible_host=1.1.1.14" ].
Proof. reflexivity. Qed.

(** ** The YAML emitters *)

Lemma length_append (s t : string) :
  String.length (s +:+ t) = (String.length s + String.length t)%nat.
Proof. induction s as [|c s IH]; [done|]. rewrite append_cons. simpl. by rewrite IH. Qed.

Lemma append_inj_r (s1 s2 t : string) : s1 +:+ t = s2 +:+ t → s1 = s2.
Proof.
  revert s2. induction s1 as [|a s1 IH]; intros [|b s2] H.
  - done.
  - apply (f_equal String.length) in H.
    rewrite append_empty, length_append in H. simpl in H. lia.
  - apply (f_equal String.length) in H.
    rewrite append_empty, length_append in H. simpl in H. lia.
  - rewrite !append_cons in H. injection H as -> H. f_equal. by apply IH.
Qed.

(** Distinct host names have distinct files. *)
Lemma yml_path_inj (dir h1 h2 : string) :
  path_join dir (h1 +:+ ".yml") = path_join dir (h2 +:+ ".yml") → h1 = h2.
Proof.
  unfold path_join. intros H.
  apply (inj (String.app dir)), (inj (String.app "/")) in H.
  by apply append_inj_r in H.
Qed.

Section emitters.
Variable yaml_dump : value → string.

Lemma host_vars_write_item_render (f : string) (item : string * value) :
  host_vars_write_item yaml_dump f item = f +:+ render_entry yaml_dump item.
Proof. destruct item as [k []]; reflexivity. Qed.

Lemma group_vars_write_item_render (f : string) (item : string * value) :
  group_vars_write_item yaml_dump f item = f +:+ render_entry yaml_dump item.
Proof. destruct item as [k []]; reflexivity. Qed.

(** Writing the items one after the other appends the concatenation of
    their renderings. *)
Lemma write_items_concat (step : string → string * value → string) :
  (∀ f item, step f item = f +:+ render_entry yaml_dump item) →
  ∀ items f,
    fold_left step items f = f +:+ Str.concat (render_entry yaml_dump <$> items).
Proof.
  intros Hstep items. induction items as [|item items IH]; intros f; simpl.
  - induction f as [|c f IHf]; [done|]. rewrite append_cons. by f_equal.
  - by rewrite IH, Hstep, append_assoc.
Qed.

Lemma write_host_vars_file_render (output_dir : string)
    (fs : gmap string string) (device : DeviceRecord) :
  write_host_vars_file yaml_dump output_dir fs device =
  <[path_join output_dir (device.(hostname) +:+ ".yml") :=
      render_mapping yaml_dump (generate_host_vars device)]> fs.
Proof.
  unfold write_host_vars_file, render_mapping, f_write.
  by rewrite (write_items_concat _ host_vars_write_item_render), append_assoc.
Qed.

Lemma create_group_vars_render (fs : gmap string string) :
  create_group_vars yaml_dump fs =
  <["group_vars/all.yml" := render_mapping yaml_dump group_vars]> fs.
Proof.
  unfold create_group_vars, render_mapping, f_write.
  by rewrite (write_items_concat _ group_vars_write_item_render), append_assoc.
Qed.

(** A file that belongs to none of the devices is left as it was. *)
Lemma create_host_vars_files_other (devices : list DeviceRecord)
    (output_dir : string) (fs : gmap string string) (p : string) :
  (∀ device, device ∈ devices →
     p ≠ path_join output_dir (device.(hostname) +:+ ".yml")) →
  create_host_vars_files yaml_dump devices output_dir fs !! p = fs !! p.
Proof.
  unfold create_host_vars_files. revert fs.
  induction devices as [|d devices IH]; intros fs Hp; simpl; [done|].
  rewrite IH by (intros; apply Hp; set_solver).
  rewrite write_host_vars_file_render, lookup_insert_ne; [done|].
  intros E. eapply Hp; [|done]. set_solver.
Qed.

(** With distinct host names, the file of each device holds the
    rendering of the mapping of that device. *)
Lemma create_host_vars_files_lookup (devices : list DeviceRecord)
    (output_dir : string) (fs : gmap string string) (device : DeviceRecord) :
  NoDup (hostname <$> devices) → device ∈ devices →
  create_host_vars_files yaml_dump devices output_dir fs
    !! path_join output_dir (device.(hostname) +:+ ".yml") =
  Some (render_mapping yaml_dump (generate_host_vars device)).
Proof.
  unfold create_host_vars_files. revert fs.
  induction devices as [|d devices IH]; intros fs Hnd Hin; simpl.
  - by apply elem_of_nil in Hin.
  - rewrite fmap_cons in Hnd. apply NoDup_cons in Hnd as [Hd Hnd].
    apply elem_of_cons in Hin as [->|Hin]; [|by apply IH].
    fold (create_host_vars_files yaml_dump devices output_dir
            (write_host_vars_file yaml_dump output_dir fs d)).
    rewrite create_host_vars_files_other.
    + by rewrite write_host_vars_file_render, lookup_insert_eq.
    + intros d' Hd' E%yml_path_inj. apply Hd. rewrite E.
      by apply list_elem_of_fmap_2.
Qed.
End emitters.

Lemma catalog_hostnames_NoDup : NoDup (hostname <$> devices_data).
Proof. apply (bool_decide_unpack _). by vm_compute. Qed.

(** C9. Both emitters render a mapping in the same way.  The file of a
    device and the global file hold [render_mapping] of their mapping: the
    document-start marker [---] on a line, then the entries in insertion
    order, an entry with the sentinel as a blank line followed by the bare
    comment text, any other entry as the YAML serialization of the one
    key/value pair. *)
Theorem emitters_render_mapping (yaml_dump : value → string) :
  (∀ output_dir fs device,
     write_host_vars_file yaml_dump output_dir fs device =
     <[path_join output_dir (device.(hostname) +:+ ".yml") :=
         render_mapping yaml_dump (generate_host_vars device)]> fs) ∧
  (∀ fs device, device ∈ devices_data →
     create_host_vars_files yaml_dump devices_data "host_vars" fs
       !! host_vars_path device =
     Some (render_mapping yaml_dump (generate_host_vars device))) ∧
  (∀ fs,
     create_group_vars yaml_dump fs =
     <["group_vars/all.yml" := render_mapping yaml_dump group_vars]> fs) ∧
  (∀ mapping,
     render_mapping yaml_dump mapping =
     "---" +:+ LF +:+ Str.concat (render_entry yaml_dump <$> mapping)) ∧
  (∀ key, render_entry yaml_dump (key, VNone) = LF +:+ key +:+ LF) ∧
  (∀ key v, v ≠ VNone →
     render_entry yaml_dump (key, v) = yaml_dump (VDict [(KStr key, v)])).
Proof.
  split; [apply write_host_vars_file_render|].
  split; [|split; [apply create_group_vars_render|]].
  - intros fs device Hin.
    by apply create_host_vars_files_lookup; [apply catalog_hostnames_NoDup|].
  - split; [done|]. split; [done|]. by intros key [].
Qed.

Lemma emitters_render_mapping_witness :
  (VInt 65001 ≠ VNone ∧
   render_entry (λ _, "<yaml>") ("bgp_asn", VInt 65001) = "<yaml>") ∧
  (mk_device "dub-ssp1" "10.10.10.1" "20.20.20.1" (Some "1.1.1.1") ∈ devices_data ∧
   create_host_vars_files (λ _, "<yaml>") devices_data "host_vars" ∅
     !! "host_vars/dub-ssp1.yml" =
   Some (render_mapping (λ _, "<yaml>")
           (generate_host_vars
              (mk_device "dub-ssp1" "10.10.10.1" "20.20.20.1" (Some "1.1.1.1"))))).
Proof.
  assert (Hv : VInt 65001 ≠ VNone) by discriminate.
  assert (Hin : mk_device "dub-ssp1" "10.10.10.1" "20.20.20.1" (Some "1.1.1.1")
                ∈ devices_data)
    by (apply list_elem_of_In; vm_compute; tauto).
  split.
  - split; [exact Hv|].
    exact (proj2 (proj2 (proj2 (proj2 (proj2
             (emitters_render_mapping (λ _, "<yaml>"))))))
             "bgp_asn" (VInt 65001) Hv).
  - split; [exact Hin|].
    exact (proj1 (proj2 (emitters_render_mapping (λ _, "<yaml>"))) ∅ _ Hin).
Defined.

(** The global file starts with the marker and the first comment. *)
Example group_vars_file_start (yaml_dump : value → string) :
  ∃ rest,
    render_mapping yaml_dump group_vars =
    "---" +:+ LF +:+ LF +:+ "# Global network parameters" +:+ LF +:+ rest.
Proof. eexists. reflexivity. Qed.

(** ** Running the generator *)

Section run.
Variable yaml_dump : value → string.

Lemma write_host_vars_file_union (output_dir : string)
    (fs : gmap string string) (device : DeviceRecord) :
  write_host_vars_file yaml_dump output_dir fs device =
  write_host_vars_file yaml_dump output_dir ∅ device ∪ fs.
Proof.
  rewrite !write_host_vars_file_render.
  by rewrite <- insert_union_l, (left_id_L ∅ (∪)).
Qed.

Lemma create_host_vars_files_union (devices : list DeviceRecord)
    (output_dir : string) (fs : gmap string string) :
  create_host_vars_files yaml_dump devices output_dir fs =
  create_host_vars_files yaml_dump devices output_dir ∅ ∪ fs.
Proof.
  unfold create_host_vars_files. revert fs.
  induction devices as [|d devices IH]; intros fs; simpl.
  - by rewrite (left_id_L ∅ (∪)).
  - rewrite IH, (IH (write_host_vars_file _ _ ∅ _)).
    by rewrite (write_host_vars_file_union _ fs), (assoc_L (∪)).
Qed.

Lemma create_group_vars_union (fs : gmap string string) :
  create_group_vars yaml_dump fs = create_group_vars yaml_dump ∅ ∪ fs.
Proof.
  rewrite !create_group_vars_render.
  by rewrite <- insert_union_l, (left_id_L ∅ (∪)).
Qed.

Lemma create_readme_union (fs : gmap string string) :
  create_readme fs = create_readme ∅ ∪ fs.
Proof. unfold create_readme. by rewrite <- insert_union_l, (left_id_L ∅ (∪)). Qed.

(** A run adds the generated files to the files at hand, replacing
    those of the same path. *)
Lemma main_union (fs : gmap string string) :
  main yaml_dump fs = Some (generated_files yaml_dump ∪ fs).
Proof.
  unfold main, create_inventory_file, generated_files.
  destruct (inventory_content_total devices_data) as [text ->].
  cbn [mbind option_bind from_option default id]. f_equal.
  rewrite create_readme_union, (create_readme_union (insert _ _ _)).
  rewrite <- (assoc_L (∪)). f_equal.
  rewrite <- insert_union_l. f_equal.
  rewrite create_group_vars_union, (create_group_vars_union (create_host_vars_files _ _ _ _)).
  rewrite <- (assoc_L (∪)). f_equal.
  apply create_host_vars_files_union.
Qed.

Lemma generated_files_dom :
  dom (generated_files yaml_dump) =
  list_to_set (host_vars_path <$> devices_data) ∪
  {[ "group_vars/all.yml"; "inventory.ini"; "README.md" ]}.
Proof.
  unfold generated_files, create_readme.
  rewrite create_group_vars_render, !dom_insert_L.
  assert (∀ devices (fs : gmap string string),
    dom (create_host_vars_files yaml_dump devices "host_vars" fs) =
    list_to_set (host_vars_path <$> devices) ∪ dom fs) as ->.
  { unfold create_host_vars_files.
    induction devices as [|d devices IH]; intros fs; simpl.
    { by rewrite (left_id_L ∅ (∪)). }
    rewrite IH, write_host_vars_file_render, dom_insert_L.
    fold (host_vars_path d).
    by rewrite !(assoc_L (∪)), (comm_L (∪) (list_to_set _)). }
  set_solver.
Qed.
End run.

(** C8. Generation is deterministic and idempotent.  The mapping of a
    device depends on the device record alone and the global mapping is a
    constant; the text of the global file is the same whatever the files at
    hand; a run of the whole generator succeeds and writes a fixed set of
    files, the same whatever the files at hand: one per device, the global
    file, the inventory and the documentation; and a second run over the
    result of a first one changes nothing. *)
Theorem generation_idempotent (yaml_dump : value → string) :
  (∀ d1 d2 : DeviceRecord,
     d1 = d2 → generate_host_vars d1 = generate_host_vars d2) ∧
  (∃ text, ∀ fs,
     create_group_vars yaml_dump fs !! "group_vars/all.yml" = Some text) ∧
  (∃ out : gmap string string,
     dom out =
       list_to_set (host_vars_path <$> devices_data) ∪
       {[ "group_vars/all.yml"; "inventory.ini"; "README.md" ]} ∧
     ∀ fs, main yaml_dump fs = Some (out ∪ fs)) ∧
  (∀ fs fs', main yaml_dump fs = Some fs' → main yaml_dump fs' = Some fs').
Proof.
  split; [by intros d1 d2 ->|]. split; [|split].
  - exists (render_mapping yaml_dump group_vars). intros fs.
    by rewrite create_group_vars_render, lookup_insert_eq.
  - exists (generated_files yaml_dump).
    split; [apply generated_files_dom | apply main_union].
  - intros fs fs'. rewrite !main_union. intros [= <-].
    by rewrite (assoc_L (∪)), (idemp_L (∪)).
Qed.

Lemma generation_idempotent_witness :
  ∃ fs', main (λ _, "") ∅ = Some fs' ∧ main (λ _, "") fs' = Some fs'.
Proof.
  destruct (generation_idempotent (λ _, "")) as (_ & _ & (out & _ & Hrun) & Hidem).
  exists (out ∪ ∅). split; [apply Hrun|]. exact (Hidem ∅ (out ∪ ∅) (Hrun ∅)).
Defined.

(** ** Further properties of the variable builder *)

(** The identification and routing fields of the mapping of a device, and
    the discipline of the sentinel, read back from the mapping. *)
Lemma host_vars_base_fields (device : DeviceRecord) :
  let hv := generate_host_vars device in
  dict_get hv "hostname" = Some (VStr device.(hostname)) ∧
  dict_get hv "device_type" =
    Some (VStr (determine_device_type device.(hostname))) ∧
  dict_get hv "router_id" = Some (VStr device.(loopback0)) ∧
  dict_get hv "ospf_process_id" = Some (VInt 1) ∧
  dict_get hv "ospf_area" = Some (VStr "0.0.0.0") ∧
  dict_get hv "bgp_asn" = Some (VInt 65001) ∧
  sentinel_ok hv = true.
Proof.
  host_vars_cases device; vm_compute; repeat split; reflexivity.
Qed.

Lemma sentinel_ok_spec (mapping : list (string * value)) :
  sentinel_ok mapping = true →
  ∀ key v, (key, v) ∈ mapping → (v = VNone ↔ Str.starts_with "#" key = true).
Proof.
  unfold sentinel_ok. rewrite forallb_forall. intros Hall key v Hin.
  apply list_elem_of_In, Hall, Bool.eqb_prop in Hin. cbn [fst snd] in Hin.
  rewrite <- Hin. by destruct v.
Qed.

(** X1. Whatever the type and the building of a device, the later updates
    leave the identification fields as they were set: the mapping holds the
    host name, the device type the classifier gives, and a router id equal to
    [loopback0]; and the interface [loopback0] has the router id with the
    prefix length 32 as its address. *)
Theorem host_vars_identification (device : DeviceRecord) :
  let hv := generate_host_vars device in
  dict_get hv "hostname" = Some (VStr device.(hostname)) ∧
  dict_get hv "device_type" =
    Some (VStr (determine_device_type device.(hostname))) ∧
  dict_get hv "router_id" = Some (VStr device.(loopback0)) ∧
  ∃ interfaces loopback,
    dict_get hv "loopback_interfaces" = Some (VDict interfaces) ∧
    dict_get interfaces (KStr "loopback0") = Some (VDict loopback) ∧
    dict_get loopback (KStr "ip_address") =
      Some (VStr (device.(loopback0) +:+ "/32")).
Proof.
  intros hv.
  destruct (host_vars_base_fields device) as (Hh & Ht & Hr & _).
  destruct (host_vars_fields device) as (_ & _ & _ & Hl & _).
  fold hv in Hh, Ht, Hr, Hl.
  split; [done|]. split; [done|]. split; [done|].
  rewrite Hl. destruct (String.eqb _ "superspine");
    eexists _, _; (split; [reflexivity|]); split; reflexivity.
Qed.

(** X2. For every device record, of the catalog or not: the mapping has a
    [vtep_ip] field exactly when the type is not [superspine], and a
    [route_reflector_cluster_id] field exactly when it is; a device that is
    not a superspine has its [loopback1] as VTEP address and as the address
    of the interface [loopback1], and is a route-reflector client; a
    superspine has no interface [loopback1]. *)
Theorem host_vars_role_split (device : DeviceRecord) :
  let hv := generate_host_vars device in
  let ty := determine_device_type device.(hostname) in
  (is_Some (dict_get hv "vtep_ip") ↔ ty ≠ "superspine") ∧
  (is_Some (dict_get hv "route_reflector_cluster_id") ↔ ty = "superspine") ∧
  (ty ≠ "superspine" →
     dict_get hv "vtep_ip" = Some (VStr device.(loopback1)) ∧
     dict_get hv "bgp_role" = Some (VStr "route_reflector_client") ∧
     ∃ interfaces loopback,
       dict_get hv "loopback_interfaces" = Some (VDict interfaces) ∧
       dict_get interfaces (KStr "loopback1") = Some (VDict loopback) ∧
       dict_get loopback (KStr "ip_address") =
         Some (VStr (device.(loopback1) +:+ "/32"))) ∧
  (ty = "superspine" →
     dict_get hv "bgp_role" = Some (VStr "route_reflector") ∧
     ∃ interfaces,
       dict_get hv "loopback_interfaces" = Some (VDict interfaces) ∧
       dict_get interfaces (KStr "loopback1") = None).
Proof.
  intros hv ty.
  destruct (host_vars_fields device) as (Hv & Hr & Hc & Hl & _).
  fold hv ty in Hv, Hr, Hc, Hl. rewrite Hv, Hr, Hc, Hl.
  destruct (String.eqb ty "superspine") eqn:E;
    [apply String.eqb_eq in E | apply String.eqb_neq in E];
    repeat split; try done;
    first [ by intros [? ?] | by eexists
          | eexists; split; reflexivity
          | eexists _, _; split; [reflexivity|]; split; reflexivity ].
Qed.

Lemma host_vars_role_split_witness :
  determine_device_type "edge-lf9" ≠ "superspine" ∧
  dict_get (generate_host_vars (mk_device "edge-lf9" "10.0.0.9" "20.0.0.9" None))
    "vtep_ip" = Some (VStr "20.0.0.9").
Proof.
  assert (Hty : determine_device_type "edge-lf9" ≠ "superspine") by discriminate.
  split; [exact Hty|].
  exact (proj1 (proj1 (proj2 (proj2 (host_vars_role_split
           (mk_device "edge-lf9" "10.0.0.9" "20.0.0.9" None)))) Hty)).
Defined.

(** X3. The routing parameters of every device are those of the global
    file: the OSPF process, the OSPF area and the BGP AS number of the
    mapping of a device are present and equal to the fields of the same name
    in [group_vars], and a device that has a route-reflector cluster id has
    the global one. *)
Theorem host_vars_routing_is_global (device : DeviceRecord) :
  let hv := generate_host_vars device in
  (∀ key, key ∈ ["ospf_process_id"; "ospf_area"; "bgp_asn"] →
     is_Some (dict_get hv key) ∧ dict_get hv key = dict_get group_vars key) ∧
  (∀ v, dict_get hv "route_reflector_cluster_id" = Some v →
     dict_get group_vars "route_reflector_cluster_id" = Some v).
Proof.
  intros hv.
  destruct (host_vars_base_fields device) as (_ & _ & _ & Hp & Ha & Hb & _).
  destruct (host_vars_fields device) as (_ & _ & Hc & _).
  fold hv in Hp, Ha, Hb, Hc. split.
  - intros key Hkey. repeat (apply elem_of_cons in Hkey as [->|Hkey]).
    + rewrite Hp. by split; [eexists|].
    + rewrite Ha. by split; [eexists|].
    + rewrite Hb. by split; [eexists|].
    + by apply elem_of_nil in Hkey.
  - intros v. rewrite Hc. by destruct (String.eqb _ _); [intros [= <-]|].
Qed.

Lemma host_vars_routing_is_global_witness :
  "bgp_asn" ∈ ["ospf_process_id"; "ospf_area"; "bgp_asn"] ∧
  dict_get (generate_host_vars (mk_device "dub-ssp1" "10.10.10.1" "20.20.20.1" None))
    "bgp_asn" = dict_get group_vars "bgp_asn".
Proof.
  assert (Hkey : "bgp_asn" ∈ ["ospf_process_id"; "ospf_area"; "bgp_asn"])
    by (apply list_elem_of_In; simpl; tauto).
  split; [exact Hkey|].
  exact (proj2 (proj1 (host_vars_routing_is_global
           (mk_device "dub-ssp1" "10.10.10.1" "20.20.20.1" None)) "bgp_asn" Hkey)).
Defined.

(** X4. In the mapping of every device and in the global mapping, the
    entries with the sentinel [None] are exactly the entries whose key starts
    with the comment sign: each bare line the emitters write is a YAML
    comment, and no field is lost as a comment. *)
Theorem sentinel_entries_are_comments :
  (∀ (device : DeviceRecord) key v,
     (key, v) ∈ generate_host_vars device →
     (v = VNone ↔ Str.starts_with "#" key = true)) ∧
  (∀ key v,
     (key, v) ∈ group_vars → (v = VNone ↔ Str.starts_with "#" key = true)).
Proof.
  split.
  - intros device. apply sentinel_ok_spec.
    by destruct (host_vars_base_fields device) as (_ & _ & _ & _ & _ & _ & H).
  - by apply sentinel_ok_spec.
Qed.

Lemma sentinel_entries_are_comments_witness :
  ("# Routing parameters", VNone)
    ∈ generate_host_vars (mk_device "dub-ssp1" "10.10.10.1" "20.20.20.1" None) ∧
  Str.starts_with "#" "# Routing parameters" = true.
Proof.
  assert (Hin : ("# Routing parameters", VNone)
     ∈ generate_host_vars (mk_device "dub-ssp1" "10.10.10.1" "20.20.20.1" None))
    by (apply list_elem_of_In; vm_compute; tauto).
  split; [exact Hin|].
  exact (proj1 (proj1 sentinel_entries_are_comments _ _ _ Hin) eq_refl).
Defined.

(** X5. The VLANs of a device follow the global design.  For a device with
    a resolved building, the [vlans] field is the list the global table
    [building_vlans] has for that building; a VLAN is in it exactly when the
    global table [vlan_stretching] lists the building for that VLAN; and the
    global table [global_vni_mappings] has the VNI [v + 10000] for each of
    them. *)
Theorem device_vlans_match_design (device : DeviceRecord) (b : string) :
  extract_building device.(hostname) = Some b →
  ∃ vlans stretching,
    dict_get (generate_host_vars device) "vlans" = Some (VList (VInt <$> vlans)) ∧
    dict_get group_vars "vlan_stretching" = Some (VDict stretching) ∧
    (∀ v, v ∈ vlans ↔
       ∃ buildings, dict_get stretching (KInt v) = Some (VList buildings) ∧
                    VStr b ∈ buildings) ∧
    (∃ table, dict_get group_vars "building_vlans" = Some (VDict table) ∧
              dict_get table (KStr b) = Some (VList (VInt <$> vlans))) ∧
    (∃ table, dict_get group_vars "global_vni_mappings" = Some (VDict table) ∧
              ∀ v, v ∈ vlans → dict_get table (KInt v) = Some (VInt (v + 10000))).
Proof.
  intros Hb.
  destruct (host_vars_fields device) as (_ & _ & _ & _ & _ & Hv & _).
  rewrite Hb in Hv. cbn [fmap option_fmap option_map] in Hv.
  exists (get_building_vlans b). eexists.
  split; [exact Hv|]. split; [reflexivity|]. clear Hv.
  apply extract_building_truthy in Hb.
  split; [|split].
  - intros v. split.
    + destruct Hb as [->|[->| ->]]; intros Hin;
        apply list_elem_of_In in Hin; cbn in Hin;
        repeat (destruct Hin as [<-|Hin]; [eexists; split; [reflexivity|];
                  apply list_elem_of_In; cbn; tauto|]); done.
    + intros (bs & Hbs & Hin). cbn [dict_get] in Hbs.
      repeat case_decide; simplify_eq;
        apply list_elem_of_In in Hin; cbn in Hin;
        destruct Hb as [->|[->| ->]]; apply list_elem_of_In; vm_compute;
        intuition congruence.
  - eexists. split; [reflexivity|]. by destruct Hb as [->|[->| ->]].
  - eexists. split; [reflexivity|]. intros v Hin.
    destruct Hb as [->|[->| ->]]; apply list_elem_of_In in Hin; cbn in Hin;
      repeat (destruct Hin as [<-|Hin]; [reflexivity|]); done.
Qed.

Lemma device_vlans_match_design_witness :
  extract_building "dub-st3-lf1" = Some "st3" ∧
  ∃ vlans,
    dict_get
      (generate_host_vars (mk_device "dub-st3-lf1" "10.10.10.15" "20.20.20.15" None))
      "vlans" = Some (VList (VInt <$> vlans)).
Proof.
  assert (Hb : extract_building "dub-st3-lf1" = Some "st3") by reflexivity.
  split; [exact Hb|].
  destruct (device_vlans_match_design
              (mk_device "dub-st3-lf1" "10.10.10.15" "20.20.20.15" None) "st3" Hb)
    as (vlans & _ & Hv & _).
  exists vlans. exact Hv.
Defined.

(** ** Further properties of the classifier *)

Lemma append_empty_r (s : string) : s +:+ "" = s.
Proof. induction s as [|c s IH]; [done|]. by rewrite append_cons, IH. Qed.

Lemma contains_extend (needle h pre post : string) :
  Str.contains needle h = true → Str.contains needle (pre +:+ h +:+ post) = true.
Proof.
  rewrite !contains_spec. intros (a & b & ->).
  exists (pre +:+ a), (b +:+ post). by rewrite !append_assoc.
Qed.

(** X6. Adding text before or after a host name, a domain suffix for
    instance, never loses what the classifier had found: a superspine stays a
    superspine, a device of a known type keeps a known type, a name of
    building [st1] stays in [st1], and a name with a building keeps having
    one. *)
Theorem classification_stable_under_extension (h pre post : string) :
  let h' := pre +:+ h +:+ post in
  (determine_device_type h = "superspine" →
     determine_device_type h' = "superspine") ∧
  (determine_device_type h ≠ "unknown" → determine_device_type h' ≠ "unknown") ∧
  (extract_building h = Some "st1" → extract_building h' = Some "st1") ∧
  (is_Some (extract_building h) → is_Some (extract_building h')).
Proof.
  intros h'. unfold determine_device_type, extract_building.
  pose proof (contains_extend "-ssp" h pre post) as H1.
  pose proof (contains_extend "-sp" h pre post) as H2.
  pose proof (contains_extend "-lf" h pre post) as H3.
  pose proof (contains_extend "-st1-" h pre post) as H4.
  pose proof (contains_extend "-st2-" h pre post) as H5.
  pose proof (contains_extend "-st3-" h pre post) as H6.
  fold h' in H1, H2, H3, H4, H5, H6.
  split; [|split; [|split]].
  - destruct ("-ssp" in_str h); [by rewrite H1|].
    by destruct ("-sp" in_str h), ("-lf" in_str h).
  - destruct ("-ssp" in_str h); [by rewrite H1|].
    destruct ("-sp" in_str h);
      [rewrite H2 by done; by destruct ("-ssp" in_str h')|].
    destruct ("-lf" in_str h); [|done]. rewrite H3 by done.
    by destruct ("-ssp" in_str h'), ("-sp" in_str h').
  - destruct ("-st1-" in_str h); [by rewrite H4|].
    by destruct ("-st2-" in_str h), ("-st3-" in_str h).
  - destruct ("-st1-" in_str h); [by rewrite H4|].
    destruct ("-st2-" in_str h);
      [rewrite H5 by done; by destruct ("-st1-" in_str h')|].
    destruct ("-st3-" in_str h); [|by intros [? ?]]. rewrite H6 by done.
    by destruct ("-st1-" in_str h'), ("-st2-" in_str h').
Qed.

Lemma classification_stable_under_extension_witness :
  determine_device_type "dub-ssp1" = "superspine" ∧
  determine_device_type ("lab." +:+ "dub-ssp1" +:+ ".campus.example") = "superspine".
Proof.
  assert (Hty : determine_device_type "dub-ssp1" = "superspine") by reflexivity.
  split; [exact Hty|].
  exact (proj1 (classification_stable_under_extension
                  "dub-ssp1" "lab." ".campus.example") Hty).
Defined.

(** ** Further properties of the inventory *)

Lemma group_by_building_from_buckets (devices : list DeviceRecord) :
  ∀ b1 b2 b3,
    group_by_building_from [("st1", b1); ("st2", b2); ("st3", b3)] devices =
    Some [ ("st1", b1 ++ of_building "st1" devices);
           ("st2", b2 ++ of_building "st2" devices);
           ("st3", b3 ++ of_building "st3" devices) ].
Proof.
  unfold of_building.
  induction devices as [|d devices IH]; intros b1 b2 b3.
  - by rewrite !filter_nil, !app_nil_r.
  - cbn [group_by_building_from]. rewrite !filter_cons.
    destruct (extract_building_cases d.(hostname)) as [E|[E|[E|E]]]; rewrite E.
    + rewrite IH. by repeat case_decide.
    + change (truthy_str "st1") with true. cbn [dict_append].
      repeat case_decide; try done. cbn [mbind option_bind]. rewrite IH.
      by rewrite <- !app_assoc.
    + change (truthy_str "st2") with true. cbn [dict_append].
      repeat case_decide; try done. cbn [mbind option_bind]. rewrite IH.
      by rewrite <- !app_assoc.
    + change (truthy_str "st3") with true. cbn [dict_append].
      repeat case_decide; try done. cbn [mbind option_bind]. rewrite IH.
      by rewrite <- !app_assoc.
Qed.

(** X7. The grouping loop never meets a missing key, whatever the list of
    devices, and leaves the three buckets [st1], [st2], [st3] in that order,
    each with the devices of the list that resolve to that building, in the
    order of the list; a device without a building is in no bucket. *)
Theorem group_by_building_buckets (devices : list DeviceRecord) :
  group_by_building devices =
  Some [ ("st1", of_building "st1" devices);
         ("st2", of_building "st2" devices);
         ("st3", of_building "st3" devices) ].
Proof. apply (group_by_building_from_buckets devices [] [] []). Qed.

Lemma unlines_cons (l : string) (ls : list string) :
  unlines (l :: ls) = l +:+ LF +:+ unlines ls.
Proof. unfold unlines. cbn [fmap list_fmap Str.concat]. by rewrite append_assoc. Qed.

Lemma unlines_app (l1 l2 : list string) :
  unlines (l1 ++ l2) = unlines l1 +:+ unlines l2.
Proof.
  induction l1 as [|l l1 IH]; [done|].
  by rewrite <- app_comm_cons, !unlines_cons, IH, !append_assoc.
Qed.

Lemma inventory_line_entry (device : DeviceRecord) :
  inventory_line device = inventory_entry device +:+ LF.
Proof. unfold inventory_line, inventory_entry. by rewrite !append_assoc. Qed.

Lemma add_inventory_lines_unlines (devices : list DeviceRecord) (content : string) :
  add_inventory_lines content devices =
  content +:+ unlines (inventory_entry <$> devices).
Proof.
  unfold add_inventory_lines. revert content.
  induction devices as [|d devices IH]; intros content; cbn [fold_left].
  - by rewrite append_empty_r.
  - by rewrite IH, fmap_cons, unlines_cons, inventory_line_entry, !append_assoc.
Qed.

Lemma building_step_unlines (content building : string)
    (devices_in_building : list DeviceRecord) :
  (if truthy_list devices_in_building then
     add_inventory_lines (content +:+ LF +:+ "[" +:+ building +:+ "]" +:+ LF)
       devices_in_building
   else content) =
  content +:+ unlines (building_section building devices_in_building).
Proof.
  unfold building_section. destruct devices_in_building as [|d ds]; cbn [truthy_list].
  - by rewrite append_empty_r.
  - rewrite add_inventory_lines_unlines, unlines_app, !unlines_cons.
    by rewrite !append_assoc.
Qed.

(** The inventory text, line by line. *)
Lemma inventory_content_lines (devices : list DeviceRecord) :
  inventory_content devices = Some (unlines (inventory_lines devices)).
Proof.
  unfold inventory_content, group_by_building.
  rewrite (group_by_building_from_buckets devices [] [] []).
  cbn [mbind option_bind fold_left app]. f_equal.
  rewrite !building_step_unlines, !add_inventory_lines_unlines.
  unfold inventory_lines. fold (of_type "superspine" devices).
  fold (of_type "spine" devices). fold (of_type "leaf" devices).
  rewrite !unlines_app, !append_assoc. reflexivity.
Qed.

(** *** Reading the lines back *)

Lemma lines_cons_line (l rest : string) :
  (LF in_str l) = false → lines (l +:+ LF +:+ rest) = l :: lines rest.
Proof.
  induction l as [|c l IH]; intros Hl.
  - reflexivity.
  - rewrite append_cons. cbn [Str.contains Str.starts_with] in Hl.
    apply orb_false_iff in Hl as [Hc Hl].
    cbn [lines]. rewrite (IH Hl).
    destruct (Ascii.eqb c (Ascii.ascii_of_nat 10)) eqn:E; [|done].
    apply Ascii.eqb_eq in E. subst c. by vm_compute in Hc.
Qed.

Lemma lines_unlines (ls : list string) :
  Forall (λ l, (LF in_str l) = false) ls → lines (unlines ls) = ls ++ [""].
Proof.
  induction 1 as [|l ls Hl _ IH]; [done|].
  by rewrite unlines_cons, lines_cons_line, IH.
Qed.

Lemma after_header_found (header : string) (before rest : list string) :
  Forall (λ l, String.eqb l header = false) before →
  after_header header (before ++ header :: rest) = rest.
Proof.
  induction 1 as [|l before Hl _ IH]; cbn [app after_header].
  - by rewrite String.eqb_refl.
  - by rewrite Hl.
Qed.

Lemma after_header_missing (header : string) (ls : list string) :
  Forall (λ l, String.eqb l header = false) ls → after_header header ls = [].
Proof. induction 1 as [|l ls Hl _ IH]; cbn [after_header]; [done|]. by rewrite Hl. Qed.

Lemma entries_until_header (entries rest : list string) :
  Forall (λ l, entry_line l = true) entries → closes_section rest = true →
  List.filter is_entry (until_header (entries ++ rest)) = entries.
Proof.
  intros Hentries Hrest. induction Hentries as [|l entries Hl _ IH].
  - cbn [app]. induction rest as [|l rest IH]; [done|].
    cbn [closes_section until_header] in *.
    destruct (Str.starts_with "[" l); [done|].
    apply andb_true_iff in Hrest as [Hl Hrest]. cbn [List.filter].
    apply negb_true_iff in Hl. rewrite Hl. by apply IH.
  - unfold entry_line in Hl. apply andb_true_iff in Hl as [He Hh].
    apply negb_true_iff in Hh. cbn [app until_header]. rewrite Hh.
    cbn [List.filter]. by rewrite He, IH.
Qed.

(** A section of [ls]: its header, entries, and a tail that closes it. *)
Lemma section_of_lines (name : string) (before entries rest : list string) :
  Forall (λ l, String.eqb l ("[" +:+ name +:+ "]") = false) before →
  Forall (λ l, entry_line l = true) entries →
  closes_section rest = true →
  List.filter is_entry
    (until_header
       (after_header ("[" +:+ name +:+ "]")
          (before ++ ("[" +:+ name +:+ "]") :: entries ++ rest))) = entries.
Proof.
  intros Hb He Hr. by rewrite after_header_found, entries_until_header.
Qed.

(** *** The lines of well-formed devices *)

Lemma contains_char_app (c : Ascii.ascii) (a b : string) :
  Str.contains (String c "") (a +:+ b) =
  Str.contains (String c "") a || Str.contains (String c "") b.
Proof.
  induction a as [|x a IH]; [done|].
  rewrite append_cons. cbn [Str.contains Str.starts_with]. rewrite IH.
  by rewrite orb_assoc.
Qed.

Lemma starts_with_char_cons (c x : Ascii.ascii) (s t : string) :
  Str.starts_with (String c "") (String x s) =
  Str.starts_with (String c "") (String x t).
Proof. cbn [Str.starts_with]. by destruct (decide (c = x)). Qed.

Lemma starts_with_char_entry (c : Ascii.ascii) (device : DeviceRecord) :
  Str.starts_with (String c "") " " = false →
  Str.starts_with (String c "") device.(hostname) = false →
  Str.starts_with (String c "") (inventory_entry device) = false.
Proof.
  unfold inventory_entry. destruct device.(hostname) as [|x h]; intros Hc Hh.
  - exact (eq_trans (starts_with_char_cons c (Ascii.ascii_of_nat 32) _ "") Hc).
  - exact (eq_trans (starts_with_char_cons c x _ h) Hh).
Qed.

Lemma entry_lf_free (device : DeviceRecord) :
  inventory_wf device = true → (LF in_str inventory_entry device) = false.
Proof.
  unfold inventory_wf, inventory_entry, LF.
  rewrite !andb_true_iff, !negb_true_iff. intros [[[Hh Hm] _] _].
  by rewrite !contains_char_app, Hh, Hm.
Qed.

Lemma entry_is_entry_line (device : DeviceRecord) :
  inventory_wf device = true → entry_line (inventory_entry device) = true.
Proof.
  unfold inventory_wf. rewrite !andb_true_iff, !negb_true_iff.
  intros [[_ Hb] Hc]. unfold entry_line, is_entry.
  rewrite !(starts_with_char_entry _ device) by done.
  cbn [negb]. rewrite !andb_true_r. apply negb_true_iff, String.eqb_neq.
  unfold inventory_entry. by destruct device.(hostname).
Qed.

Lemma entry_line_not_header (name l : string) :
  entry_line l = true → String.eqb l ("[" +:+ name +:+ "]") = false.
Proof.
  intros Hl. apply String.eqb_neq. intros ->.
  unfold entry_line in Hl. by rewrite andb_comm in Hl.
Qed.

Section wf_devices.
Variable devices : list DeviceRecord.
Hypothesis Hwf : Forall (λ d, inventory_wf d = true) devices.

Lemma wf_filter (P : DeviceRecord → Prop) `{∀ d, Decision (P d)} :
  Forall (λ d, inventory_wf d = true) (filter P devices).
Proof.
  apply Forall_forall. intros d [_ Hd]%list_elem_of_filter.
  by eapply Forall_forall in Hwf.
Qed.

Lemma entries_entry_line (ds : list DeviceRecord) :
  Forall (λ d, inventory_wf d = true) ds →
  Forall (λ l, entry_line l = true) (inventory_entry <$> ds).
Proof. intros H. apply Forall_fmap. eapply Forall_impl; [done|]. apply entry_is_entry_line. Qed.

Lemma entries_lf_free (ds : list DeviceRecord) :
  Forall (λ d, inventory_wf d = true) ds →
  Forall (λ l, (LF in_str l) = false) (inventory_entry <$> ds).
Proof. intros H. apply Forall_fmap. eapply Forall_impl; [done|]. apply entry_lf_free. Qed.

Lemma entries_not_header (name : string) (ds : list DeviceRecord) :
  Forall (λ d, inventory_wf d = true) ds →
  Forall (λ l, String.eqb l ("[" +:+ name +:+ "]") = false) (inventory_entry <$> ds).
Proof.
  intros H. eapply Forall_impl; [by apply entries_entry_line|].
  intros l. apply entry_line_not_header.
Qed.

Lemma building_section_lf_free (b : string) (ds : list DeviceRecord) :
  (LF in_str b) = false → Forall (λ d, inventory_wf d = true) ds →
  Forall (λ l, (LF in_str l) = false) (building_section b ds).
Proof.
  intros Hb H. unfold building_section. destruct (truthy_list ds); [|done].
  apply Forall_app_2; [|by apply entries_lf_free].
  apply Forall_cons_2; [done|]. apply Forall_cons_2; [|done].
  unfold LF in *. by rewrite !contains_char_app, Hb.
Qed.

Lemma building_section_not_header (name b : string) (ds : list DeviceRecord) :
  b ≠ name → Forall (λ d, inventory_wf d = true) ds →
  Forall (λ l, String.eqb l ("[" +:+ name +:+ "]") = false) (building_section b ds).
Proof.
  intros Hb H. unfold building_section. destruct (truthy_list ds); [|done].
  apply Forall_app_2; [|by apply entries_not_header].
  apply Forall_cons_2; [done|]. apply Forall_cons_2; [|done].
  apply String.eqb_neq. intros E. apply Hb.
  apply (inj (String.app "[")) in E. by apply append_inj_r in E.
Qed.

Lemma building_section_closes (b : string) (ds : list DeviceRecord) (rest : list string) :
  closes_section rest = true → closes_section (building_section b ds ++ rest) = true.
Proof. intros H. unfold building_section. by destruct (truthy_list ds). Qed.
End wf_devices.

Lemma inventory_lines_lf_free (devices : list DeviceRecord) :
  Forall (λ d, inventory_wf d = true) devices →
  Forall (λ l, (LF in_str l) = false) (inventory_lines devices).
Proof.
  intros Hwf. unfold inventory_lines, of_type, of_building.
  repeat first
    [ apply Forall_app_2
    | apply entries_lf_free, wf_filter, Hwf
    | apply building_section_lf_free; [reflexivity | apply wf_filter, Hwf] ].
  - by apply (bool_decide_unpack _).
  - by apply (bool_decide_unpack _).
  - by apply (bool_decide_unpack _).
  - by apply (bool_decide_unpack _).
Qed.

Lemma after_header_skip (header : string) (l1 l2 : list string) :
  Forall (λ l, String.eqb l header = false) l1 →
  after_header header (l1 ++ l2) = after_header header l2.
Proof. induction 1 as [|l l1 Hl _ IH]; cbn [app after_header]; [done|]. by rewrite Hl. Qed.

(** Lines are told apart from a header: the fixed ones by evaluation, the
    entries because they do not start with a bracket. *)
Ltac lines_not_header :=
  repeat first
    [ apply Forall_nil_2
    | apply Forall_cons_2; [reflexivity|]
    | apply Forall_app_2
    | apply entries_not_header; assumption
    | apply building_section_not_header; [discriminate | assumption] ].

Ltac skip_lines := rewrite after_header_skip by lines_not_header.

Ltac section_closes :=
  repeat first [ reflexivity | apply building_section_closes ].

(** X8. The inventory of a list of well-formed devices can be read back:
    the section of a type holds the lines of the devices of that type and the
    section of a building the lines of the devices that resolve to it, each
    in the order of the list, with the placeholder [ansible_host_not_set] for
    a device without management address; a building without device has no
    section, and so no entry. *)
Theorem inventory_sections_read_back (devices : list DeviceRecord) :
  Forall (λ d, inventory_wf d = true) devices →
  ∃ text,
    inventory_content devices = Some text ∧
    section_entries "superspines" text =
      inventory_entry <$> of_type "superspine" devices ∧
    section_entries "spines" text = inventory_entry <$> of_type "spine" devices ∧
    section_entries "leafs" text = inventory_entry <$> of_type "leaf" devices ∧
    section_entries "st1" text = inventory_entry <$> of_building "st1" devices ∧
    section_entries "st2" text = inventory_entry <$> of_building "st2" devices ∧
    section_entries "st3" text = inventory_entry <$> of_building "st3" devices.
Proof.
  intros Hwf. exists (unlines (inventory_lines devices)).
  split; [apply inventory_content_lines|].
  unfold section_entries.
  rewrite lines_unlines by by apply inventory_lines_lf_free.
  unfold inventory_lines, inventory_footer_lines.
  pose proof (wf_filter devices Hwf
    (λ d, determine_device_type d.(hostname) = "superspine")) as Hss.
  pose proof (wf_filter devices Hwf
    (λ d, determine_device_type d.(hostname) = "spine")) as Hsp.
  pose proof (wf_filter devices Hwf
    (λ d, determine_device_type d.(hostname) = "leaf")) as Hlf.
  pose proof (wf_filter devices Hwf
    (λ d, extract_building d.(hostname) = Some "st1")) as H1.
  pose proof (wf_filter devices Hwf
    (λ d, extract_building d.(hostname) = Some "st2")) as H2.
  pose proof (wf_filter devices Hwf
    (λ d, extract_building d.(hostname) = Some "st3")) as H3.
  fold (of_type "superspine" devices) (of_type "spine" devices)
    (of_type "leaf" devices) (of_building "st1" devices)
    (of_building "st2" devices) (of_building "st3" devices) in *.
  generalize dependent (of_type "superspine" devices). intros Dss Hss.
  generalize dependent (of_type "spine" devices). intros Dsp Hsp.
  generalize dependent (of_type "leaf" devices). intros Dlf Hlf.
  generalize dependent (of_building "st1" devices). intros D1 H1.
  generalize dependent (of_building "st2" devices). intros D2 H2.
  generalize dependent (of_building "st3" devices). intros D3 H3.
  clear devices Hwf. rewrite <- !app_assoc.
  split; [|split; [|split; [|split; [|split]]]].
  - apply (section_of_lines "superspines" [_; _; _] (inventory_entry <$> Dss));
      [lines_not_header | by apply entries_entry_line | section_closes].
  - do 2 skip_lines.
    apply (section_of_lines "spines" [""] (inventory_entry <$> Dsp));
      [lines_not_header | by apply entries_entry_line | section_closes].
  - do 4 skip_lines.
    apply (section_of_lines "leafs" [""] (inventory_entry <$> Dlf));
      [lines_not_header | by apply entries_entry_line | section_closes].
  - do 6 skip_lines. destruct D1 as [|d D1].
    + change (building_section "st1" []) with (@nil string).
      by rewrite after_header_missing by lines_not_header.
    + apply (section_of_lines "st1" [""] (inventory_entry <$> d :: D1));
        [lines_not_header | by apply entries_entry_line | section_closes].
  - do 7 skip_lines. destruct D2 as [|d D2].
    + change (building_section "st2" []) with (@nil string).
      by rewrite after_header_missing by lines_not_header.
    + apply (section_of_lines "st2" [""] (inventory_entry <$> d :: D2));
        [lines_not_header | by apply entries_entry_line | section_closes].
  - do 8 skip_lines. destruct D3 as [|d D3].
    + change (building_section "st3" []) with (@nil string).
      by rewrite after_header_missing by lines_not_header.
    + apply (section_of_lines "st3" [""] (inventory_entry <$> d :: D3));
        [lines_not_header | by apply entries_entry_line | section_closes].
Qed.

Lemma inventory_sections_read_back_witness :
  Forall (λ d, inventory_wf d = true)
    [ mk_device "dub-ssp1" "10.10.10.1" "20.20.20.1" None;
      mk_device "dub-st2-lf1" "10.10.10.13" "20.20.20.13" (Some "1.1.1.13") ] ∧
  ∃ text,
    inventory_content
      [ mk_device "dub-ssp1" "10.10.10.1" "20.20.20.1" None;
        mk_device "dub-st2-lf1" "10.10.10.13" "20.20.20.13" (Some "1.1.1.13") ]
      = Some text ∧
    section_entries "superspines" text =
      ["dub-ssp1 ansible_host=ansible_host_not_set"] ∧
    section_entries "st2" text = ["dub-st2-lf1 ansible_host=1.1.1.13"] ∧
    section_entries "st1" text = [].
Proof.
  assert (Hwf : Forall (λ d, inventory_wf d = true)
    [ mk_device "dub-ssp1" "10.10.10.1" "20.20.20.1" None;
      mk_device "dub-st2-lf1" "10.10.10.13" "20.20.20.13" (Some "1.1.1.13") ])
    by (repeat (apply Forall_cons_2; [reflexivity|]); apply Forall_nil_2).
  split; [exact Hwf|].
  destruct (inventory_sections_read_back _ Hwf)
    as (text & Ht & Hss & _ & _ & H1 & H2 & _).
  exists text. split; [exact Ht|].
  split; [exact Hss|]. split; [exact H2 | exact H1].
Defined.

(** X9. The three comprehensions of the inventory and the devices of
    unknown type split the list of devices: every device is in exactly one
    of the four groups, so a device whose type is unknown is listed under
    none of [superspines], [spines] and [leafs]. *)
Theorem type_sections_partition (devices : list DeviceRecord) :
  devices ≡ₚ
  of_type "superspine" devices ++ of_type "spine" devices ++
  of_type "leaf" devices ++ of_type "unknown" devices.
Proof.
  unfold of_type. induction devices as [|d devices IH]; [done|].
  rewrite !filter_cons.
  destruct (determine_device_type_cases d.(hostname)) as [E|[E|[E|E]]];
    rewrite E; repeat case_decide; try done;
    rewrite <- ?app_comm_cons, <- ?Permutation_middle; by f_equiv.
Qed.

(** ** Further properties of the file writers *)

(** X10. When several devices of a list share a host name they share a
    file, and the last of them wins: after the loop the file of a device
    holds the rendering of its mapping as soon as no later device of the list
    has the same host name.  A path that is the file of no device of the list
    is left as it was.  (Host names without a path separator, for which the
    path of the file is the one [Path] builds.) *)
Theorem host_vars_last_write_wins (yaml_dump : value → string)
    (fs : gmap string string) (before after : list DeviceRecord)
    (device : DeviceRecord) :
  Forall (λ d, ("/" in_str d.(hostname)) = false) (before ++ device :: after) →
  Forall (λ d, d.(hostname) ≠ device.(hostname)) after →
  create_host_vars_files yaml_dump (before ++ device :: after) "host_vars" fs
    !! host_vars_path device =
    Some (render_mapping yaml_dump (generate_host_vars device)) ∧
  ∀ p, (∀ d, d ∈ before ++ device :: after → p ≠ host_vars_path d) →
    create_host_vars_files yaml_dump (before ++ device :: after) "host_vars" fs
      !! p = fs !! p.
Proof.
  intros _ Hafter. split; [|by apply create_host_vars_files_other].
  unfold create_host_vars_files. rewrite fold_left_app. cbn [fold_left].
  fold (create_host_vars_files yaml_dump before "host_vars" fs).
  fold (create_host_vars_files yaml_dump after "host_vars"
          (write_host_vars_file yaml_dump "host_vars"
             (create_host_vars_files yaml_dump before "host_vars" fs) device)).
  rewrite create_host_vars_files_other.
  - by rewrite write_host_vars_file_render, lookup_insert_eq.
  - intros d Hd E%yml_path_inj.
    by apply (proj1 (Forall_forall _ _) Hafter d Hd).
Qed.

Lemma host_vars_last_write_wins_witness :
  Forall (λ d, ("/" in_str d.(hostname)) = false)
    ([mk_device "dub-lf1" "10.0.0.1" "20.0.0.1" None] ++
      mk_device "dub-lf1" "10.0.0.2" "20.0.0.2" None ::
      [mk_device "dub-lf2" "10.0.0.3" "20.0.0.3" None]) ∧
  Forall (λ d, d.(hostname) ≠ "dub-lf1")
    [mk_device "dub-lf2" "10.0.0.3" "20.0.0.3" None] ∧
  create_host_vars_files (λ _, "") 
    ([mk_device "dub-lf1" "10.0.0.1" "20.0.0.1" None] ++
      mk_device "dub-lf1" "10.0.0.2" "20.0.0.2" None ::
      [mk_device "dub-lf2" "10.0.0.3" "20.0.0.3" None]) "host_vars" ∅
    !! "host_vars/dub-lf1.yml" =
  Some (render_mapping (λ _, "")
          (generate_host_vars (mk_device "dub-lf1" "10.0.0.2" "20.0.0.2" None))).
Proof.
  assert (Hs : Forall (λ d, ("/" in_str d.(hostname)) = false)
    ([mk_device "dub-lf1" "10.0.0.1" "20.0.0.1" None] ++
      mk_device "dub-lf1" "10.0.0.2" "20.0.0.2" None ::
      [mk_device "dub-lf2" "10.0.0.3" "20.0.0.3" None]))
    by (repeat (apply Forall_cons_2; [reflexivity|]); apply Forall_nil_2).
  assert (Ha : Forall (λ d, d.(hostname) ≠ "dub-lf1")
    [mk_device "dub-lf2" "10.0.0.3" "20.0.0.3" None])
    by (apply Forall_cons_2; [discriminate | apply Forall_nil_2]).
  split; [exact Hs|]. split; [exact Ha|].
  exact (proj1 (host_vars_last_write_wins (λ _, "") ∅
           [mk_device "dub-lf1" "10.0.0.1" "20.0.0.1" None]
           [mk_device "dub-lf2" "10.0.0.3" "20.0.0.3" None]
           (mk_device "dub-lf1" "10.0.0.2" "20.0.0.2" None) Hs Ha)).
Defined.

Lemma create_host_vars_files_lookup_other (yaml_dump : value → string)
    (devices : list DeviceRecord) (fs : gmap string string) (p : string) :
  p ∉ host_vars_path <$> devices →
  create_host_vars_files yaml_dump devices "host_vars" fs !! p = fs !! p.
Proof.
  intros Hp. apply create_host_vars_files_other. intros d Hd ->.
  apply Hp. change (host_vars_path d ∈ host_vars_path <$> devices).
  by apply list_elem_of_fmap_2.
Qed.

(** X11. The order of the devices does not matter when their host names
    are distinct: two lists with the same devices in another order leave the
    same files.  And writing the files of any list of devices a second time
    changes nothing. *)
Theorem host_vars_files_order_insensitive (yaml_dump : value → string)
    (fs : gmap string string) (devices devices' : list DeviceRecord) :
  (Forall (λ d, ("/" in_str d.(hostname)) = false) devices →
   NoDup (hostname <$> devices) → devices ≡ₚ devices' →
   create_host_vars_files yaml_dump devices "host_vars" fs =
   create_host_vars_files yaml_dump devices' "host_vars" fs) ∧
  create_host_vars_files yaml_dump devices "host_vars"
    (create_host_vars_files yaml_dump devices "host_vars" fs) =
  create_host_vars_files yaml_dump devices "host_vars" fs.
Proof.
  split.
  - intros _ Hnd Hperm. apply map_eq. intros p.
    assert (Hnd' : NoDup (hostname <$> devices')) by by rewrite <- Hperm.
    destruct (decide (p ∈ host_vars_path <$> devices)) as [Hp|Hp].
    + apply list_elem_of_fmap in Hp as (d & -> & Hd).
      unfold host_vars_path.
      rewrite !create_host_vars_files_lookup; try done. by rewrite <- Hperm.
    + rewrite !create_host_vars_files_lookup_other; try done. by rewrite <- Hperm.
  - rewrite (create_host_vars_files_union _ _ _ (create_host_vars_files _ _ _ _)).
    rewrite (create_host_vars_files_union _ _ _ fs).
    by rewrite (assoc_L (∪)), (idemp_L (∪)).
Qed.

Lemma host_vars_files_order_insensitive_witness :
  Forall (λ d, ("/" in_str d.(hostname)) = false)
    [ mk_device "dub-lf1" "10.0.0.1" "20.0.0.1" None;
      mk_device "dub-lf2" "10.0.0.2" "20.0.0.2" None ] ∧
  NoDup (hostname <$>
    [ mk_device "dub-lf1" "10.0.0.1" "20.0.0.1" None;
      mk_device "dub-lf2" "10.0.0.2" "20.0.0.2" None ]) ∧
  create_host_vars_files (λ _, "")
    [ mk_device "dub-lf1" "10.0.0.1" "20.0.0.1" None;
      mk_device "dub-lf2" "10.0.0.2" "20.0.0.2" None ] "host_vars" ∅ =
  create_host_vars_files (λ _, "")
    [ mk_device "dub-lf2" "10.0.0.2" "20.0.0.2" None;
      mk_device "dub-lf1" "10.0.0.1" "20.0.0.1" None ] "host_vars" ∅.
Proof.
  assert (Hs : Forall (λ d, ("/" in_str d.(hostname)) = false)
    [ mk_device "dub-lf1" "10.0.0.1" "20.0.0.1" None;
      mk_device "dub-lf2" "10.0.0.2" "20.0.0.2" None ])
    by (repeat (apply Forall_cons_2; [reflexivity|]); apply Forall_nil_2).
  assert (Hnd : NoDup (hostname <$>
    [ mk_device "dub-lf1" "10.0.0.1" "20.0.0.1" None;
      mk_device "dub-lf2" "10.0.0.2" "20.0.0.2" None ]))
    by (apply (bool_decide_unpack _); vm_compute; exact I).
  split; [exact Hs|]. split; [exact Hnd|].
  exact (proj1 (host_vars_files_order_insensitive (λ _, "") ∅ _ _) Hs Hnd
           (perm_swap _ _ [])).
Defined.

(** ** Further properties of a run *)

Lemma host_vars_path_head (device : DeviceRecord) :
  Str.starts_with "host_vars/" (host_vars_path device) = true.
Proof. reflexivity. Qed.

Lemma host_vars_path_not_fixed (device : DeviceRecord) :
  host_vars_path device ∉ ["group_vars/all.yml"; "inventory.ini"; "README.md"].
Proof.
  intros H. pose proof (host_vars_path_head device) as Hh.
  repeat (apply elem_of_cons in H as [H|H]; [by rewrite H in Hh|]).
  by apply elem_of_nil in H.
Qed.

(** X12. The four writers do not step on each other.  After a run,
    [README.md] holds the static document, [inventory.ini] the inventory of
    the catalog, [group_vars/all.yml] the rendering of the global mapping and
    the file of each device of the catalog the rendering of its mapping;
    every other path is as it was before the run. *)
Theorem main_files (yaml_dump : value → string) (fs : gmap string string) :
  ∃ fs' text,
    main yaml_dump fs = Some fs' ∧
    inventory_content devices_data = Some text ∧
    fs' !! "README.md" = Some readme_content ∧
    fs' !! "inventory.ini" = Some text ∧
    fs' !! "group_vars/all.yml" = Some (render_mapping yaml_dump group_vars) ∧
    (∀ device, device ∈ devices_data →
       fs' !! host_vars_path device =
       Some (render_mapping yaml_dump (generate_host_vars device))) ∧
    (∀ p, p ∉ ["group_vars/all.yml"; "inventory.ini"; "README.md"] →
       p ∉ host_vars_path <$> devices_data → fs' !! p = fs !! p).
Proof.
  unfold main, create_inventory_file.
  destruct (inventory_content_total devices_data) as [text Ht]. rewrite Ht.
  cbn [mbind option_bind]. eexists _, text. split; [reflexivity|].
  split; [reflexivity|]. unfold create_readme.
  rewrite create_group_vars_render.
  split; [by rewrite lookup_insert_eq|].
  split; [by rewrite lookup_insert_ne, lookup_insert_eq by done|].
  split; [by do 2 rewrite lookup_insert_ne by done; rewrite lookup_insert_eq|]. split.
  - intros device Hin. pose proof (host_vars_path_not_fixed device) as Hp.
    do 3 rewrite lookup_insert_ne
      by (intros E; apply Hp; rewrite <- E; apply list_elem_of_In; cbn [In]; tauto).
    unfold host_vars_path.
    by apply create_host_vars_files_lookup; [apply catalog_hostnames_NoDup|].
  - intros p Hp Hp'.
    do 3 rewrite lookup_insert_ne
      by (intros E; apply Hp; rewrite <- E; apply list_elem_of_In; cbn [In]; tauto).
    by apply create_host_vars_files_lookup_other.
Qed.

Lemma main_files_witness :
  mk_device "dub-ssp1" "10.10.10.1" "20.20.20.1" (Some "1.1.1.1") ∈ devices_data ∧
  ∃ fs',
    main (λ _, "") ∅ = Some fs' ∧
    fs' !! "host_vars/dub-ssp1.yml" =
    Some (render_mapping (λ _, "")
            (generate_host_vars
               (mk_device "dub-ssp1" "10.10.10.1" "20.20.20.1" (Some "1.1.1.1")))).
Proof.
  assert (Hin : mk_device "dub-ssp1" "10.10.10.1" "20.20.20.1" (Some "1.1.1.1")
                ∈ devices_data)
    by (apply list_elem_of_In; vm_compute; tauto).
  split; [exact Hin|].
  destruct (main_files (λ _, "") ∅) as (fs' & text & Hrun & _ & _ & _ & _ & Hd & _).
  exists fs'. split; [exact Hrun|]. exact (Hd _ Hin).
Defined.

(** X13. The YAML serializer is only ever given a dict with one string key
    and a value that is not [None]: two serializers that agree on such dicts
    give the same files, for the file of any device and for the global
    file. *)
Theorem emitters_dump_only_fields (yaml_dump yaml_dump' : value → string) :
  (∀ key v, v ≠ VNone →
     yaml_dump (VDict [(KStr key, v)]) = yaml_dump' (VDict [(KStr key, v)])) →
  (∀ output_dir fs device,
     write_host_vars_file yaml_dump output_dir fs device =
     write_host_vars_file yaml_dump' output_dir fs device) ∧
  (∀ fs, create_group_vars yaml_dump fs = create_group_vars yaml_dump' fs).
Proof.
  intros Hagree.
  assert (Hrender : ∀ mapping,
    render_mapping yaml_dump mapping = render_mapping yaml_dump' mapping).
  { intros mapping.
    assert (render_entry yaml_dump <$> mapping = render_entry yaml_dump' <$> mapping)
      as Hentries; [|unfold render_mapping; by rewrite Hentries].
    induction mapping as [|[key v] mapping IH]; [done|].
    rewrite !fmap_cons, IH. f_equal.
    unfold render_entry. cbn [fst snd]. destruct v; try by apply Hagree. done. }
  split.
  - intros. by rewrite !write_host_vars_file_render, Hrender.
  - intros. by rewrite !create_group_vars_render, Hrender.
Qed.

Lemma emitters_dump_only_fields_witness :
  (∀ key v, v ≠ VNone →
     (λ _ : value, "x") (VDict [(KStr key, v)]) =
     (λ d : value, match d with VDict [(_, VNone)] => "y" | _ => "x" end)
       (VDict [(KStr key, v)])) ∧
  create_group_vars (λ _, "x") ∅ =
  create_group_vars
    (λ d : value, match d with VDict [(_, VNone)] => "y" | _ => "x" end) ∅.
Proof.
  assert (Hagree : ∀ key v, v ≠ VNone →
     (λ _ : value, "x") (VDict [(KStr key, v)]) =
     (λ d : value, match d with VDict [(_, VNone)] => "y" | _ => "x" end)
       (VDict [(KStr key, v)]))
    by (intros key [] Hv; [destruct (Hv eq_refl) | reflexivity ..]).
  split; [exact Hagree|].
  exact (proj2 (emitters_dump_only_fields _ _ Hagree) ∅).
Defined.

(** X14. For every list of devices the inventory is produced, and its
    text is, line by line: the fixed head with the header [superspines], the
    lines of the superspines, the header and the lines of the spines, then of
    the leafs, then for each of [st1], [st2], [st3] that has a device a blank
    line, its header and the lines of its devices, and the fixed end. *)
Theorem inventory_text_lines (devices : list DeviceRecord) :
  inventory_content devices = Some (unlines (inventory_lines devices)).
Proof. apply inventory_content_lines. Qed.
